(** * Mswipe donation payments: controller and gateway service

    A shallow embedding of the payment orchestration of the donation
    backend: [controllers/mswipeController.js] (initiatePayment,
    handleCallback, getDonationStatus, verifyTransaction and the
    reference generator), [services/mswipeService.js] (generateToken,
    createOrder, verifyCallback, checkTransactionStatus, refreshToken,
    getEnvironmentInfo and the id generators) and the part of
    [models/Donation.js] these handlers read and write.

    Conventions of the embedding:
    - request bodies and processor replies are untyped JavaScript values
      ([JsVal]); a property that is missing reads as [VUndef];
    - JavaScript numbers are exact rationals extended with NaN and the two
      infinities; binary64 rounding is not modelled;
    - the donations collection is a list in insertion order; a document is
      identified by its position, which plays the role of Mongo's [_id];
    - handlers run in a state monad over [World]; an exception is a result
      of the computation, as with a rejected promise, and effects made
      before it are kept;
    - logger calls have no effect on control flow and are left out. *)

From Stdlib Require Import Ascii String ZArith QArith NArith.
From Stdlib Require Import DecimalString DecimalN.
From stdpp Require Import base strings list.

Local Open Scope string_scope.
Local Open Scope list_scope.

(** ** JavaScript numbers *)

Module Js.

Inductive JsNum : Type :=
| NaN
| PosInf
| NegInf
| Fin (q : Q).

Definition num_of_Z (z : Z) : JsNum := Fin (inject_Z z).

(** ToBoolean on a number: 0 and NaN are falsy. *)
Definition num_truthy (n : JsNum) : bool :=
  match n with
  | NaN => false
  | PosInf | NegInf => true
  | Fin q => negb (Qeq_bool q 0)
  end.

(** [a === b] on numbers. *)
Definition num_eqb (a b : JsNum) : bool :=
  match a, b with
  | Fin p, Fin q => Qeq_bool p q
  | PosInf, PosInf => true
  | NegInf, NegInf => true
  | _, _ => false
  end.

(** [a < b] on numbers; any comparison with NaN is false. *)
Definition num_ltb (a b : JsNum) : bool :=
  match a, b with
  | NaN, _ | _, NaN => false
  | _, NegInf => false
  | NegInf, _ => true
  | PosInf, _ => false
  | Fin _, PosInf => true
  | Fin p, Fin q => negb (Qle_bool q p)
  end.

Definition num_gtb (a b : JsNum) : bool := num_ltb b a.

(** [a <= b] on numbers. *)
Definition num_leb (a b : JsNum) : bool :=
  match a, b with
  | NaN, _ | _, NaN => false
  | NegInf, _ => true
  | _, PosInf => true
  | _, NegInf => false
  | PosInf, _ => false
  | Fin p, Fin q => Qle_bool p q
  end.

Definition num_add (a b : JsNum) : JsNum :=
  match a, b with
  | NaN, _ | _, NaN => NaN
  | PosInf, NegInf | NegInf, PosInf => NaN
  | PosInf, _ | _, PosInf => PosInf
  | NegInf, _ | _, NegInf => NegInf
  | Fin p, Fin q => Fin (p + q)
  end.

Definition num_sign (q : Q) : comparison := (Qnum q ?= 0)%Z.

Definition num_mul (a b : JsNum) : JsNum :=
  match a, b with
  | NaN, _ | _, NaN => NaN
  | Fin p, Fin q => Fin (p * q)
  | Fin p, PosInf | PosInf, Fin p =>
      match num_sign p with Eq => NaN | Gt => PosInf | Lt => NegInf end
  | Fin p, NegInf | NegInf, Fin p =>
      match num_sign p with Eq => NaN | Gt => NegInf | Lt => PosInf end
  | PosInf, PosInf | NegInf, NegInf => PosInf
  | PosInf, NegInf | NegInf, PosInf => NegInf
  end.

(** ** JavaScript values

    [VObj repr] is an object or array; [repr] is the string its ToString
    conversion yields (["[object Object]"] for a plain object, the joined
    elements for an array). *)

Inductive JsVal : Type :=
| VUndef
| VNull
| VBool (b : bool)
| VNum (n : JsNum)
| VStr (s : string)
| VObj (repr : string).

Definition str_nonempty (s : string) : bool :=
  match s with EmptyString => false | String _ _ => true end.

(** ToBoolean. *)
Definition truthy (v : JsVal) : bool :=
  match v with
  | VUndef | VNull => false
  | VBool b => b
  | VNum n => num_truthy n
  | VStr s => str_nonempty s
  | VObj _ => true
  end.

Definition falsy (v : JsVal) : bool := negb (truthy v).

(** [a || b]. *)
Definition js_or (a b : JsVal) : JsVal := if truthy a then a else b.

(** [v === 'lit'] for a string literal. *)
Definition is_str (v : JsVal) (lit : string) : bool :=
  match v with VStr s => String.eqb s lit | _ => false end.

(** [v === true]. *)
Definition is_true (v : JsVal) : bool :=
  match v with VBool true => true | _ => false end.

(** [v === k] for an integer literal [k]. *)
Definition is_int (v : JsVal) (k : Z) : bool :=
  match v with VNum n => num_eqb n (num_of_Z k) | _ => false end.

(** ** Strings: case, white space *)

Definition lower_ascii (c : ascii) : ascii :=
  let n := nat_of_ascii c in
  if (65 <=? n)%nat && (n <=? 90)%nat then ascii_of_nat (n + 32) else c.

(** [String.prototype.toLowerCase] on the letters A-Z. Outside ASCII only
    the Kelvin sign lowercases to an ASCII letter (k), so comparing the
    result with 'approved' or 'pending' gives what JavaScript gives. *)
Fixpoint toLowerCase (s : string) : string :=
  match s with
  | EmptyString => EmptyString
  | String c r => String (lower_ascii c) (toLowerCase r)
  end.

(** White space and line terminators of the ASCII range. *)
Definition is_ws (c : ascii) : bool :=
  let n := nat_of_ascii c in
  ((9 <=? n)%nat && (n <=? 13)%nat) || (n =? 32)%nat.

Fixpoint trim_start (s : string) : string :=
  match s with
  | String c r => if is_ws c then trim_start r else s
  | EmptyString => EmptyString
  end.

Fixpoint trim_end (s : string) : string :=
  match s with
  | EmptyString => EmptyString
  | String c r =>
      match trim_end r with
      | EmptyString => if is_ws c then EmptyString else String c EmptyString
      | r' => String c r'
      end
  end.

(** [String.prototype.trim]. *)
Definition trim (s : string) : string := trim_end (trim_start s).

(** ** Numeric literals in strings *)

Definition is_digit (c : ascii) : bool :=
  let n := nat_of_ascii c in (48 <=? n)%nat && (n <=? 57)%nat.

(** Value of a digit of a radix up to 16, [None] for any other character. *)
Definition digit_of (c : ascii) : option Z :=
  let n := nat_of_ascii c in
  if (48 <=? n)%nat && (n <=? 57)%nat then Some (Z.of_nat (n - 48))
  else if (97 <=? n)%nat && (n <=? 102)%nat then Some (Z.of_nat (n - 87))
  else if (65 <=? n)%nat && (n <=? 70)%nat then Some (Z.of_nat (n - 55))
  else None.

(** Longest run of decimal digits at the head of [s]: the number read so
    far, how many digits were read, and what is left. *)
Fixpoint scan_digits (s : string) (acc : Z) (cnt : nat) : Z * nat * string :=
  match s with
  | String c r =>
      if is_digit c
      then scan_digits r (10 * acc + Z.of_nat (nat_of_ascii c - 48)) (S cnt)
      else (acc, cnt, s)
  | EmptyString => (acc, cnt, s)
  end.

(** [m * 10^e] as a rational. *)
Definition scale10 (m e : Z) : Q :=
  if (0 <=? e)%Z then inject_Z (m * 10 ^ e)
  else Qmake m (Z.to_pos (10 ^ (- e))).

(** ExponentPart, taken only when at least one digit follows the sign. *)
Definition scan_exponent (s : string) : Z * string :=
  match s with
  | String c r =>
      if Ascii.eqb c "e" || Ascii.eqb c "E" then
        let '(neg, r1) :=
          match r with
          | String "+" r' => (false, r')
          | String "-" r' => (true, r')
          | _ => (false, r)
          end in
        let '(v, cnt, rest) := scan_digits r1 0 0 in
        match cnt with
        | O => (0%Z, s)
        | S _ => ((if neg then - v else v)%Z, rest)
        end
      else (0%Z, s)
  | EmptyString => (0%Z, s)
  end.

Fixpoint string_drop (n : nat) (s : string) : string :=
  match n, s with
  | S k, String _ r => string_drop k r
  | _, _ => s
  end.

(** StrUnsignedDecimalLiteral: the longest prefix of [s] that is one, with
    its value and the rest of the string. *)
Definition scan_unsigned (s : string) : option (JsNum * string) :=
  if String.prefix "Infinity" s then Some (PosInf, string_drop 8 s)
  else
    let '(i, ni, r1) := scan_digits s 0 0 in
    let '(m, nf, r2) :=
      match r1 with
      | String "." r => scan_digits r i 0
      | _ => (i, O, r1)
      end in
    match (ni + nf)%nat with
    | O => None
    | S _ =>
        let '(e, r3) := scan_exponent r2 in
        Some (Fin (scale10 m (e - Z.of_nat nf)), r3)
    end.

Definition num_neg (n : JsNum) : JsNum :=
  match n with
  | NaN => NaN
  | PosInf => NegInf
  | NegInf => PosInf
  | Fin q => Fin (- q)
  end.

(** StrDecimalLiteral: an optional sign, then an unsigned literal. *)
Definition scan_decimal (s : string) : option (JsNum * string) :=
  match s with
  | String "+" r => scan_unsigned r
  | String "-" r =>
      match scan_unsigned r with
      | Some (n, rest) => Some (num_neg n, rest)
      | None => None
      end
  | _ => scan_unsigned s
  end.

(** [parseFloat] on a string: leading white space is skipped, the longest
    decimal literal is read, what follows it is ignored. *)
Definition parseFloat_str (s : string) : JsNum :=
  match scan_decimal (trim_start s) with
  | Some (n, _) => n
  | None => NaN
  end.

(** [parseFloat(v)]: [v] is first converted to a string; the string of a
    number reads back as that number. *)
Definition parseFloat (v : JsVal) : JsNum :=
  match v with
  | VStr s => parseFloat_str s
  | VObj repr => parseFloat_str repr
  | VNum n => n
  | VUndef | VNull | VBool _ => NaN
  end.

(** Digits of a given radix filling the whole of [s]. *)
Fixpoint scan_radix (radix : Z) (s : string) (acc : Z) : option Z :=
  match s with
  | EmptyString => Some acc
  | String c r =>
      match digit_of c with
      | Some d => if (d <? radix)%Z then scan_radix radix r (radix * acc + d) else None
      | None => None
      end
  end.

Definition radix_literal (radix : Z) (digits : string) : JsNum :=
  match digits with
  | EmptyString => NaN
  | _ => match scan_radix radix digits 0 with
         | Some z => num_of_Z z
         | None => NaN
         end
  end.

(** StringToNumber, the conversion behind [Number(s)], [s <= 0] and
    [s * 1000]: the whole trimmed string has to be a literal, and the empty
    string is 0. *)
Definition StringToNumber (s : string) : JsNum :=
  match trim s with
  | EmptyString => num_of_Z 0
  | String "0" (String c r) as t =>
      if Ascii.eqb c "x" || Ascii.eqb c "X" then radix_literal 16 r
      else if Ascii.eqb c "o" || Ascii.eqb c "O" then radix_literal 8 r
      else if Ascii.eqb c "b" || Ascii.eqb c "B" then radix_literal 2 r
      else match scan_decimal t with
           | Some (n, EmptyString) => n
           | _ => NaN
           end
  | t => match scan_decimal t with
         | Some (n, EmptyString) => n
         | _ => NaN
         end
  end.

(** ToNumber. *)
Definition ToNumber (v : JsVal) : JsNum :=
  match v with
  | VUndef => NaN
  | VNull => num_of_Z 0
  | VBool b => num_of_Z (if b then 1 else 0)
  | VNum n => n
  | VStr s => StringToNumber s
  | VObj repr => StringToNumber repr
  end.

End Js.

Import Js.

(** ** The Donation document (models/Donation.js) *)

Inductive PaymentStatus : Type := PENDING | SUCCESS | FAILED.

(** The legacy [status] field. *)
Inductive LegacyStatus : Type := pending | completed | failed.

Global Instance PaymentStatus_eq_dec : EqDecision PaymentStatus.
Proof. solve_decision. Defined.

(** [paymentStatus.toLowerCase()]. *)
Definition status_lower (s : PaymentStatus) : string :=
  match s with
  | PENDING => "pending"
  | SUCCESS => "success"
  | FAILED => "failed"
  end.

(** The [mswipeResponse] object createOrder builds from the reply of the
    payment-link call. *)
Record LinkInfo : Type := {
  li_txn_id : JsVal;
  li_responsecode : JsVal;
  li_responsemessage : JsVal;
  li_messageContent : JsVal;
  li_extraNotes : list JsVal
}.

(** The [callback] object handleCallback stores. *)
Record CallbackInfo : Type := {
  ci_ipgId : JsVal;
  ci_transactionRef : JsVal;
  ci_cardType : JsVal;
  ci_cardNumber : JsVal;
  ci_responseCode : JsVal;
  ci_responseDesc : JsVal;
  ci_dateTime : JsVal;
  ci_merchantId : JsVal;
  ci_terminalId : JsVal;
  ci_extraNotes : list JsVal;
  ci_rawStatus : JsVal
}.

(** One element of [Data] in the reply of getPBLTransactionDetails. *)
Record TxnData : Type := {
  td_IPG_ID : JsVal;
  td_Amount : JsVal;
  td_Cust_Code : JsVal;
  td_MID : JsVal;
  td_TID : JsVal;
  td_Payment_Status : JsVal;
  td_Payment_Desc : JsVal;
  td_Order_Id : JsVal;
  td_Payment_Id : JsVal;
  td_TrxDateTime : JsVal;
  td_CardNumber : JsVal;
  td_CardType : JsVal;
  td_PaymentType : JsVal;
  td_Created_On : JsVal
}.

(** The [data] object checkTransactionStatus returns: the mapped status
    and the reply's fields, which it copies under new names
    ([ipgId] is [td_IPG_ID], [paymentId] is [td_Payment_Id],
    [statusCode] is [td_Payment_Status], and so on). *)
Record StatusData : Type := {
  sd_status : PaymentStatus;
  sd_txn : TxnData
}.

Definition sd_ipgId (d : StatusData) : JsVal := td_IPG_ID (sd_txn d).
Definition sd_paymentId (d : StatusData) : JsVal := td_Payment_Id (sd_txn d).

(** [mswipePaymentResponse], a Mixed field: the link-creation fields at the
    top level, then the keys [callback] and [statusCheck] that object
    spread adds without dropping what is there. *)
Record StoredResponse : Type := {
  sr_link : option LinkInfo;
  sr_callback : option CallbackInfo;
  sr_statusCheck : option StatusData
}.

Definition no_response : StoredResponse :=
  {| sr_link := None; sr_callback := None; sr_statusCheck := None |}.

(** The fields of a donation the payment handlers read or write. The
    address, PAN and tax fields are only copied from the request into the
    document and are not represented. *)
Record Donation : Type := {
  fullName : string;
  email : string;
  amount : JsNum;
  donationRef : string;
  status : LegacyStatus;
  paymentStatus : PaymentStatus;
  mswipeOrderId : option string;
  mswipeTransactionRef : option string;
  mswipeIpgId : option string;
  mswipeTransId : option string;
  mswipePaymentResponse : StoredResponse;
  updatedAt : Z
}.

Definition set_status (d : Donation) (ps : PaymentStatus) (ls : LegacyStatus)
  : Donation :=
  {| fullName := fullName d; email := email d; amount := amount d;
     donationRef := donationRef d; status := ls; paymentStatus := ps;
     mswipeOrderId := mswipeOrderId d;
     mswipeTransactionRef := mswipeTransactionRef d;
     mswipeIpgId := mswipeIpgId d; mswipeTransId := mswipeTransId d;
     mswipePaymentResponse := mswipePaymentResponse d;
     updatedAt := updatedAt d |}.

Definition set_processor_refs (d : Donation) (txref ipg : option string)
  (resp : StoredResponse) : Donation :=
  {| fullName := fullName d; email := email d; amount := amount d;
     donationRef := donationRef d; status := status d;
     paymentStatus := paymentStatus d;
     mswipeOrderId := mswipeOrderId d;
     mswipeTransactionRef := txref;
     mswipeIpgId := ipg; mswipeTransId := mswipeTransId d;
     mswipePaymentResponse := resp;
     updatedAt := updatedAt d |}.

Definition set_link (d : Donation) (ipg transId : option string)
  (resp : StoredResponse) : Donation :=
  {| fullName := fullName d; email := email d; amount := amount d;
     donationRef := donationRef d; status := status d;
     paymentStatus := paymentStatus d;
     mswipeOrderId := mswipeOrderId d;
     mswipeTransactionRef := mswipeTransactionRef d;
     mswipeIpgId := ipg; mswipeTransId := transId;
     mswipePaymentResponse := resp;
     updatedAt := updatedAt d |}.

Definition set_updatedAt (d : Donation) (t : Z) : Donation :=
  {| fullName := fullName d; email := email d; amount := amount d;
     donationRef := donationRef d; status := status d;
     paymentStatus := paymentStatus d;
     mswipeOrderId := mswipeOrderId d;
     mswipeTransactionRef := mswipeTransactionRef d;
     mswipeIpgId := mswipeIpgId d; mswipeTransId := mswipeTransId d;
     mswipePaymentResponse := mswipePaymentResponse d;
     updatedAt := t |}.

(** ** The world the handlers run in *)

(** Calls to the processor's HTTP API, as [axios.post] sends them. *)
Inductive Request : Type :=
| CreatePBLAuthToken
| MswipePayment (invoice_id : string) (amount : JsNum) (sessiontoken : JsVal)
| GetPBLTransactionDetails (id : string).

(** One call of [sendDonationEmail]. *)
Record Mail : Type := {
  mail_to : string;
  mail_name : string;
  mail_donationRef : string;
  mail_transactionRef : option string;
  mail_amount : JsNum
}.

Record World : Type := {
  donations : list Donation;   (* the collection, oldest first *)
  cachedToken : JsVal;         (* MswipeService.cachedToken *)
  tokenExpiry : option JsNum;  (* MswipeService.tokenExpiry; None is null *)
  requests : list Request;     (* processor calls made so far *)
  outbox : list Mail           (* notifications handed to the mailer *)
}.

Definition with_donations (w : World) (ds : list Donation) : World :=
  {| donations := ds; cachedToken := cachedToken w;
     tokenExpiry := tokenExpiry w; requests := requests w;
     outbox := outbox w |}.

Definition with_token (w : World) (tok : JsVal) (exp : option JsNum) : World :=
  {| donations := donations w; cachedToken := tok; tokenExpiry := exp;
     requests := requests w; outbox := outbox w |}.

Definition with_request (w : World) (r : Request) : World :=
  {| donations := donations w; cachedToken := cachedToken w;
     tokenExpiry := tokenExpiry w; requests := requests w ++ [r];
     outbox := outbox w |}.

Definition with_mail (w : World) (m : Mail) : World :=
  {| donations := donations w; cachedToken := cachedToken w;
     tokenExpiry := tokenExpiry w; requests := requests w;
     outbox := outbox w ++ [m] |}.

(** The service singleton right after construction, with no donations. *)
Definition initial_world : World :=
  {| donations := []; cachedToken := VNull; tokenExpiry := None;
     requests := []; outbox := [] |}.

(** Exceptions the handlers tell apart: Mongo's duplicate key error
    (code 11000) and everything else. *)
Inductive Exn : Type := DuplicateKey | OtherError.

Inductive Result (A : Type) : Type :=
| Ok (a : A)
| Thrown (e : Exn).
Arguments Ok {A} a.
Arguments Thrown {A} e.

(** A computation with effects on the world that may throw. *)
Definition M (A : Type) : Type := World -> Result A * World.

Global Instance M_ret : MRet M := fun A a w => (Ok a, w).

Global Instance M_bind : MBind M := fun A B f m w =>
  match m w with
  | (Ok a, w') => f a w'
  | (Thrown e, w') => (Thrown e, w')
  end.

Definition throw {A : Type} (e : Exn) : M A := fun w => (Thrown e, w).

(** [try { m } catch (e) { h e }]. *)
Definition try_catch {A : Type} (m : M A) (h : Exn -> M A) : M A := fun w =>
  match m w with
  | (Ok a, w') => (Ok a, w')
  | (Thrown e, w') => h e w'
  end.

Definition get_world : M World := fun w => (Ok w, w).
Definition put_world (w' : World) : M unit := fun _ => (Ok tt, w').

(** ** What lies outside the repository

    One [Env] fixes, for the handling of one request, everything the code
    obtains from outside itself: the process environment, the clock, the
    random identifiers, what the processor answers, and the library
    functions whose results the handlers only pass on or branch on. *)

(** The outcome of [axios.post]: the promise rejects (network failure,
    timeout, a status outside 2xx, a body that is not an object), or it
    resolves with the fields of [response.data]. *)
Inductive Axios (A : Type) : Type :=
| Rejected
| Resolved (data : A).
Arguments Rejected {A}.
Arguments Resolved {A} data.

Record TokenReply : Type := {
  tk_status : JsVal;
  tk_token : JsVal;
  tk_msg : JsVal
}.

Record PaymentReply : Type := {
  pl_status : JsVal;
  pl_smslink : JsVal;
  pl_txn_id : JsVal;
  pl_responsecode : JsVal;
  pl_responsemessage : JsVal;
  pl_MessageContent : JsVal;
  pl_ExtraNotes : list JsVal
}.

(** [dr_Data0] is [data.Data && data.Data[0]] when that is truthy. *)
Record DetailsReply : Type := {
  dr_Status : JsVal;
  dr_Data0 : option TxnData;
  dr_ResponseMessage : JsVal
}.

Record Env : Type := {
  (* process.env *)
  MSWIPE_USER_ID : JsVal;
  MSWIPE_CLIENT_ID : JsVal;
  MSWIPE_PASSWORD : JsVal;
  MSWIPE_CUST_CODE : JsVal;
  FRONTEND_PAYMENT_RESULT_URL : JsVal;
  (* Date.now(), and the identifiers built from the clock and Math.random *)
  now : Z;
  fresh_donationRef : string;
  fresh_orderId : string;
  (* the processor's answers to the three calls *)
  reply_token : Axios TokenReply;
  reply_payment : Axios PaymentReply;
  reply_details : Axios DetailsReply;
  (* validator.isEmail and validator.escape on strings *)
  isEmail : string -> bool;
  escape : string -> string;
  (* JSON.parse(Buffer.from(token.split('.')[1], 'base64').toString()).exp:
     None when any step of it throws, else the value of the property *)
  jwt_exp : JsVal -> option JsVal;
  (* new URL(link).searchParams.get('TransID'), None when the link does not
     parse or has no such parameter *)
  url_TransID : JsVal -> option string;
  (* Number.prototype.toString *)
  Number_toString : JsNum -> string;
  (* Donation.findOne({ mswipeOrderId: key }) for a key that is not a
     string: the query may fail to cast, match nothing, or match the
     document at some position *)
  findOne_other_key : JsVal -> list Donation -> Result (option nat)
}.

Section Handlers.

Context (E : Env).

(** ** services/mswipeService.js *)

Definition isConfigured : bool :=
  truthy (MSWIPE_USER_ID E) && truthy (MSWIPE_CLIENT_ID E) &&
  truthy (MSWIPE_PASSWORD E) && truthy (MSWIPE_CUST_CODE E).

(** [axios.post(url, payload, ...)]: the call is made, then the promise
    settles as the processor decides. *)
Definition axios_post {A : Type} (r : Request) (reply : Axios A) : M A :=
  fun w =>
    match reply with
    | Resolved data => (Ok data, with_request w r)
    | Rejected => (Thrown OtherError, with_request w r)
    end.

(** The [{ success, token, error }] object of generateToken; the error
    text only reaches the log. *)
Inductive TokenResult : Type :=
| TokenOk (token : JsVal)
| TokenFailed.

Definition bufferTime : Z := 60 * 60 * 1000.
Definition defaultTokenLifetime : Z := 25 * 24 * 60 * 60 * 1000.

(** The guard of generateToken: a cached token, a cached expiry, and the
    expiry later than one hour from now. *)
Definition cache_fresh (w : World) : bool :=
  truthy (cachedToken w) &&
  match tokenExpiry w with
  | Some e => num_truthy e && num_gtb e (num_of_Z (now E + bufferTime))
  | None => false
  end.

(** The expiry generateToken stores for a fresh token. *)
Definition parsed_expiry (token : JsVal) : JsNum :=
  match jwt_exp E token with
  | Some exp => num_mul (ToNumber exp) (num_of_Z 1000)
  | None => num_of_Z (now E + defaultTokenLifetime)
  end.

Definition generateToken : M TokenResult :=
  try_catch
    (w ← get_world;
     if cache_fresh w then mret (TokenOk (cachedToken w))
     else
       data ← axios_post CreatePBLAuthToken (reply_token E);
       if is_str (tk_status data) "true" || is_true (tk_status data) then
         w' ← get_world;
         put_world (with_token w' (tk_token data)
                      (Some (parsed_expiry (tk_token data))));;
         mret (TokenOk (tk_token data))
       else mret TokenFailed)
    (fun _ => mret TokenFailed).

Record OrderData : Type := {
  od_name : JsVal;
  od_email : JsVal;
  od_mobile : JsVal;
  od_amount : JsNum;
  od_orderId : string;
  od_donationRef : string;
  od_purpose : JsVal
}.

Record OrderInfo : Type := {
  oi_paymentUrl : JsVal;
  oi_txnId : JsVal;
  oi_transId : option string;
  oi_mswipeResponse : LinkInfo
}.

Inductive OrderResult : Type :=
| OrderCreated (data : OrderInfo)
| OrderFailed.

Definition createOrder (o : OrderData) : M OrderResult :=
  try_catch
    (if falsy (od_name o) || falsy (od_email o) || falsy (od_mobile o)
        || negb (num_truthy (od_amount o)) || negb (str_nonempty (od_orderId o))
     then mret OrderFailed
     else
       tokenResult ← generateToken;
       match tokenResult with
       | TokenFailed => mret OrderFailed
       | TokenOk token =>
           data ← axios_post
                    (MswipePayment (od_orderId o) (od_amount o) token)
                    (reply_payment E);
           if is_str (pl_status data) "True" || is_true (pl_status data)
              || is_str (pl_status data) "true"
           then
             let paymentUrl := pl_smslink data in
             if falsy paymentUrl then mret OrderFailed
             else mret (OrderCreated
                          {| oi_paymentUrl := paymentUrl;
                             oi_txnId := pl_txn_id data;
                             oi_transId := url_TransID E paymentUrl;
                             oi_mswipeResponse :=
                               {| li_txn_id := pl_txn_id data;
                                  li_responsecode := pl_responsecode data;
                                  li_responsemessage := pl_responsemessage data;
                                  li_messageContent := pl_MessageContent data;
                                  li_extraNotes := pl_ExtraNotes data |} |})
           else mret OrderFailed
       end)
    (fun _ => mret OrderFailed).

(** The BackPosting body, by the processor's field names. *)
Record CallbackData : Type := {
  IPG_ID : JsVal;
  ME_InvNo : JsVal;
  TRAN_STATUS : JsVal;
  TranAmount : JsVal;
  RRN : JsVal;
  CardType : JsVal;
  CardNumber : JsVal;
  DateTime : JsVal;
  RC : JsVal;
  RC_DESC : JsVal;
  CUST_EMAIL : JsVal;
  CustMobNr : JsVal;
  ME_NAME : JsVal;
  MerID : JsVal;
  TermID : JsVal;
  WP_ID : JsVal;
  EX_NOTES : list JsVal
}.

(** The object verifyCallback returns when [valid] is true. *)
Record Verification : Type := {
  v_orderId : JsVal;
  v_ipgId : JsVal;
  v_status : PaymentStatus;
  v_transactionRef : JsVal;
  v_amount : option JsNum;     (* None is null *)
  v_cardType : JsVal;
  v_cardNumber : JsVal;
  v_responseCode : JsVal;
  v_responseDesc : JsVal;
  v_dateTime : JsVal;
  v_merchantId : JsVal;
  v_terminalId : JsVal;
  v_extraNotes : list JsVal
}.

Inductive CallbackError : Type :=
| MissingOrderId      (* 'Missing order/invoice ID in callback' *)
| VerificationThrew.  (* the catch clause of verifyCallback *)

Inductive VerifyResult : Type :=
| Valid (v : Verification)
| Invalid (e : CallbackError).

(** The status computed from TRAN_STATUS; [None] when [toLowerCase] is
    called on a truthy value that is not a string, which throws. *)
Definition callback_status (t : JsVal) : option PaymentStatus :=
  if truthy t then
    match t with
    | VStr s =>
        if String.eqb (toLowerCase s) "approved" then Some SUCCESS
        else if String.eqb (toLowerCase s) "pending" then Some PENDING
        else Some FAILED
    | _ => None
    end
  else Some FAILED.

Definition verifyCallback (cb : CallbackData) : VerifyResult :=
  if falsy (ME_InvNo cb) && falsy (IPG_ID cb) then Invalid MissingOrderId
  else
    match callback_status (TRAN_STATUS cb) with
    | None => Invalid VerificationThrew
    | Some paymentStatus =>
        Valid {| v_orderId := ME_InvNo cb;
                 v_ipgId := IPG_ID cb;
                 v_status := paymentStatus;
                 v_transactionRef := js_or (RRN cb) (IPG_ID cb);
                 v_amount := if truthy (TranAmount cb)
                             then Some (parseFloat (TranAmount cb))
                             else None;
                 v_cardType := CardType cb;
                 v_cardNumber := CardNumber cb;
                 v_responseCode := RC cb;
                 v_responseDesc := RC_DESC cb;
                 v_dateTime := DateTime cb;
                 v_merchantId := MerID cb;
                 v_terminalId := TermID cb;
                 v_extraNotes := EX_NOTES cb |}
    end.

(** The mapping of Payment_Status in checkTransactionStatus:
    2 = Pending, 1 = Success, anything else Failed. *)
Definition map_payment_status (code : JsVal) : PaymentStatus :=
  if is_int code 1 then SUCCESS
  else if is_int code 2 then PENDING
  else FAILED.

Inductive StatusResult : Type :=
| StatusOk (data : StatusData)
| StatusFailed.

Definition checkTransactionStatus (transId : string) : M StatusResult :=
  try_catch
    (if negb (str_nonempty transId) then mret StatusFailed
     else
       data ← axios_post (GetPBLTransactionDetails transId) (reply_details E);
       if is_str (dr_Status data) "True" || is_true (dr_Status data) then
         match dr_Data0 data with
         | None => mret StatusFailed
         | Some txnData =>
             mret (StatusOk
                     {| sd_status := map_payment_status (td_Payment_Status txnData);
                        sd_txn := txnData |})
         end
       else mret StatusFailed)
    (fun _ => mret StatusFailed).

End Handlers.

(** ** HTTP responses *)

(** The JSON bodies the handlers send, one constructor per shape. *)
Inductive Body : Type :=
| ErrorBody (error : string)
| ErrorsBody (errors : list string)
| InitiateFailedBody (error : string) (donationRef : string)
| InitiatedBody (paymentUrl : JsVal) (donationRef orderId : string)
| AlreadyProcessedBody (message : string) (status : PaymentStatus)
| CallbackResultBody (success : bool) (status : PaymentStatus)
    (donationRef : string) (message : string)
| UnverifiableBody (error : string) (status : PaymentStatus)
| VerifyFailedBody (error : string) (currentStatus : PaymentStatus)
| VerifiedBody (donationRef : string) (status : PaymentStatus)
    (mswipeStatus : StatusData) (amount : JsNum)
    (transactionRef : option string) (updatedAt : Z).

(** [res.status(code).json(body)] and [res.redirect(url)]; the redirect
    target is kept as its parts: the configured page and the query
    parameters status, ref and, when given, amount. *)
Inductive Response : Type :=
| Json (code : nat) (body : Body)
| Redirect (page : JsVal) (status : string) (ref : string)
    (amount : option JsNum).

Section Controller.

Context (E : Env).

(** ** Mongoose, as far as the handlers use it *)

(** Assignment to a String path: undefined and null leave the path unset,
    arrays and objects fail to cast (which makes [save] reject), other
    values are converted. *)
Definition castString (v : JsVal) : option (option string) :=
  match v with
  | VUndef | VNull => Some None
  | VStr s => Some (Some s)
  | VBool b => Some (Some (if b then "true" else "false"))
  | VNum n => Some (Some (Number_toString E n))
  | VObj _ => None
  end.

(** [Donation.findOne({ mswipeOrderId: key })]: the first document that
    matches, with its position. *)
Definition findOne_by_order (key : JsVal) : M (option (nat * Donation)) :=
  fun w =>
    match key with
    | VStr s =>
        (Ok (list_find (λ d, mswipeOrderId d = Some s) (donations w)), w)
    | _ =>
        match findOne_other_key E key (donations w) with
        | Thrown e => (Thrown e, w)
        | Ok None => (Ok None, w)
        | Ok (Some i) =>
            (Ok (match donations w !! i with
                 | Some d => Some (i, d)
                 | None => None
                 end), w)
        end
    end.

(** [Donation.findOne({ donationRef })]. *)
Definition findOne_by_ref (ref : string) : M (option (nat * Donation)) :=
  fun w => (Ok (list_find (λ d, donationRef d = ref) (donations w)), w).

(** [donation.save()] on a document read from the collection: the pre-save
    hook stamps [updatedAt], then the document replaces the stored one. *)
Definition save (i : nat) (d : Donation) : M Donation := fun w =>
  let d' := set_updatedAt d (now E) in
  (Ok d', with_donations w (<[i := d']> (donations w))).

(** The first [save()] of a new document: schema validation, then the
    insert, which the unique index on [donationRef] may refuse. *)
Definition save_new (valid : bool) (d : Donation) : M (nat * Donation) :=
  fun w =>
    if negb valid then (Thrown OtherError, w)
    else
      match list_find (λ x, donationRef x = donationRef d) (donations w) with
      | Some _ => (Thrown DuplicateKey, w)
      | None =>
          let d' := set_updatedAt d (now E) in
          (Ok (length (donations w), d'),
           with_donations w (donations w ++ [d']))
      end.

(** [try { await sendDonationEmail(...) } catch { log }]: the mailer is
    invoked and its outcome does not reach the handler. *)
Definition sendDonationEmail (d : Donation) : M unit := fun w =>
  (Ok tt, with_mail w {| mail_to := email d; mail_name := fullName d;
                         mail_donationRef := donationRef d;
                         mail_transactionRef := mswipeTransactionRef d;
                         mail_amount := amount d |}).

(** ** controllers/mswipeController.js *)

Definition internal_error : Response :=
  Json 500 (ErrorBody "Internal server error").

Record InitiateBody : Type := {
  b_fullName : JsVal;
  b_email : JsVal;
  b_phoneNumber : JsVal;
  b_amount : JsVal;
  b_purpose : JsVal;
  b_reasonForDonation : JsVal;
  (* whether state, city, pinCode, address, seek80G and reasonForDonation,
     which the handler only copies into the document, pass the schema *)
  b_rest_valid : bool
}.

Definition ToString (v : JsVal) : string :=
  match v with
  | VUndef => "undefined"
  | VNull => "null"
  | VBool b => if b then "true" else "false"
  | VNum n => Number_toString E n
  | VStr s => s
  | VObj repr => repr
  end.

Fixpoint all_digits (s : string) : bool :=
  match s with
  | EmptyString => true
  | String c r => is_digit c && all_digits r
  end.

(** [/^[0-9]{10}$/.test(s)]. *)
Definition ten_digits (s : string) : bool :=
  Nat.eqb (String.length s) 10 && all_digits s.

(** [!fullName || !fullName.trim()]; [None] is the TypeError of calling
    [trim] on a truthy value that has no such method. *)
Definition fullName_missing (v : JsVal) : option bool :=
  if falsy v then Some true
  else match v with
       | VStr s => Some (negb (str_nonempty (trim s)))
       | _ => None
       end.

(** [!email || !validator.isEmail(email)]; validator throws on a value
    that is not a string. *)
Definition email_invalid (v : JsVal) : option bool :=
  if falsy v then Some true
  else match v with
       | VStr s => Some (negb (isEmail E s))
       | _ => None
       end.

Definition phone_invalid (v : JsVal) : bool :=
  falsy v || negb (ten_digits (ToString v)).

Definition amount_invalid (v : JsVal) : bool :=
  falsy v || num_leb (ToNumber v) (num_of_Z 0).

(** The basic validation of initiatePayment: the list [errors], or [None]
    when evaluating a check throws. *)
Definition basic_validation (b : InitiateBody) : option (list string) :=
  match fullName_missing (b_fullName b), email_invalid (b_email b) with
  | Some n, Some e =>
      Some ((if n then ["fullName is required"] else []) ++
            (if e then ["Valid email is required"] else []) ++
            (if phone_invalid (b_phoneNumber b)
             then ["Valid 10-digit phone number is required"] else []) ++
            (if amount_invalid (b_amount b)
             then ["Amount must be greater than 0"] else []))
  | _, _ => None
  end.

Definition sanitizeInput (v : JsVal) : JsVal :=
  match v with
  | VStr s => VStr (escape E (trim s))
  | _ => v
  end.

Definition text_of (v : JsVal) : string :=
  match v with VStr s => s | _ => EmptyString end.

(** [new Donation(donationData)]: a PENDING donation with no processor
    linkage; the schema trims both strings and lowercases the email. *)
Definition new_donation (b : InitiateBody) (ref orderId : string) : Donation :=
  {| fullName := trim (text_of (sanitizeInput (b_fullName b)));
     email := toLowerCase (trim (text_of (sanitizeInput (b_email b))));
     amount := ToNumber (b_amount b);
     donationRef := ref;
     status := pending;
     paymentStatus := PENDING;
     mswipeOrderId := Some orderId;
     mswipeTransactionRef := None;
     mswipeIpgId := None;
     mswipeTransId := None;
     mswipePaymentResponse := no_response;
     updatedAt := now E |}.

(** Schema validation of the new document: required strings present,
    [amount] a number of at least 1, the remaining fields as the body
    says. *)
Definition schema_valid (b : InitiateBody) (d : Donation) : bool :=
  str_nonempty (fullName d) && str_nonempty (email d) &&
  match castString (sanitizeInput (b_phoneNumber b)) with
  | Some (Some p) => str_nonempty (trim p)
  | _ => false
  end &&
  num_leb (num_of_Z 1) (amount d) && str_nonempty (donationRef d) &&
  b_rest_valid b.

Definition initiatePayment (b : InitiateBody) : M Response :=
  try_catch
    (if negb (isConfigured E) then
       mret (Json 503 (ErrorBody "Payment service temporarily unavailable"))
     else
       match basic_validation b with
       | None => throw OtherError
       | Some (e :: errs) => mret (Json 400 (ErrorsBody (e :: errs)))
       | Some [] =>
           let donationRef := fresh_donationRef E in
           let mswipeOrderId := fresh_orderId E in
           let doc := new_donation b donationRef mswipeOrderId in
           '(i, donation) ← save_new (schema_valid b doc) doc;
           mswipeResult ← createOrder E
             {| od_name := b_fullName b;
                od_email := b_email b;
                od_mobile := b_phoneNumber b;
                od_amount := ToNumber (b_amount b);
                od_orderId := mswipeOrderId;
                od_donationRef := donationRef;
                od_purpose := js_or (b_purpose b) (b_reasonForDonation b) |};
           match mswipeResult with
           | OrderFailed =>
               save i (set_status donation FAILED failed);;
               mret (Json 500 (InitiateFailedBody "Failed to initiate payment"
                                 donationRef))
           | OrderCreated data =>
               match castString (oi_txnId data) with
               | None => throw OtherError
               | Some ipg =>
                   save i (set_link donation ipg (oi_transId data)
                             {| sr_link := Some (oi_mswipeResponse data);
                                sr_callback := None;
                                sr_statusCheck := None |});;
                   mret (Json 200 (InitiatedBody (oi_paymentUrl data)
                                     donationRef mswipeOrderId))
               end
           end
       end)
    (fun err =>
       match err with
       | DuplicateKey =>
           mret (Json 409 (ErrorBody "Duplicate order detected. Please try again."))
       | OtherError => mret internal_error
       end).

(** [verification.amount && Number(verification.amount) !== donation.amount] *)
Definition amount_mismatch (v : Verification) (d : Donation) : bool :=
  match v_amount v with
  | Some a => num_truthy a && negb (num_eqb a (amount d))
  | None => false
  end.

Definition callback_info (v : Verification) (cb : CallbackData) : CallbackInfo :=
  {| ci_ipgId := v_ipgId v;
     ci_transactionRef := v_transactionRef v;
     ci_cardType := v_cardType v;
     ci_cardNumber := v_cardNumber v;
     ci_responseCode := v_responseCode v;
     ci_responseDesc := v_responseDesc v;
     ci_dateTime := v_dateTime v;
     ci_merchantId := v_merchantId v;
     ci_terminalId := v_terminalId v;
     ci_extraNotes := v_extraNotes v;
     ci_rawStatus := TRAN_STATUS cb |}.

Definition legacy_of (s : PaymentStatus) : LegacyStatus :=
  match s with SUCCESS => completed | _ => failed end.

Definition handleCallback (callbackData : CallbackData) : M Response :=
  try_catch
    (match verifyCallback callbackData with
     | Invalid _ => mret (Json 400 (ErrorBody "Invalid callback data"))
     | Valid verification =>
         found ← findOne_by_order (v_orderId verification);
         match found with
         | None => mret (Json 404 (ErrorBody "Donation not found"))
         | Some (i, donation) =>
             if decide (paymentStatus donation ≠ PENDING) then
               if truthy (FRONTEND_PAYMENT_RESULT_URL E) then
                 mret (Redirect (FRONTEND_PAYMENT_RESULT_URL E)
                         (status_lower (paymentStatus donation))
                         (donationRef donation) None)
               else
                 mret (Json 200 (AlreadyProcessedBody
                                   "Donation already processed"
                                   (paymentStatus donation)))
             else if amount_mismatch verification donation then
               save i (set_status donation FAILED failed);;
               mret (Json 400 (ErrorBody "Amount verification failed"))
             else
               match castString (v_transactionRef verification),
                     castString (v_ipgId verification) with
               | Some txref, Some ipg =>
                   let resp := mswipePaymentResponse donation in
                   donation ← save i
                     (set_processor_refs
                        (set_status donation (v_status verification)
                           (legacy_of (v_status verification)))
                        txref ipg
                        {| sr_link := sr_link resp;
                           sr_callback :=
                             Some (callback_info verification callbackData);
                           sr_statusCheck := sr_statusCheck resp |});
                   (if decide (paymentStatus donation = SUCCESS)
                    then sendDonationEmail donation else mret tt);;
                   if truthy (FRONTEND_PAYMENT_RESULT_URL E) then
                     mret (Redirect (FRONTEND_PAYMENT_RESULT_URL E)
                             (status_lower (paymentStatus donation))
                             (donationRef donation) (Some (amount donation)))
                   else
                     mret (Json 200 (CallbackResultBody
                                       (bool_decide (paymentStatus donation = SUCCESS))
                                       (paymentStatus donation)
                                       (donationRef donation)
                                       (if decide (paymentStatus donation = SUCCESS)
                                        then "Payment successful"
                                        else "Payment failed")))
               | _, _ => throw OtherError
               end
         end
     end)
    (fun _ => mret internal_error).

Definition verifyTransaction (ref : string) : M Response :=
  try_catch
    (if negb (str_nonempty ref) then
       mret (Json 400 (ErrorBody "Donation reference is required"))
     else
       found ← findOne_by_ref ref;
       match found with
       | None => mret (Json 404 (ErrorBody "Donation not found"))
       | Some (i, donation) =>
           match mswipeTransId donation with
           | Some (String c r as transId) =>
               statusResult ← checkTransactionStatus E transId;
               match statusResult with
               | StatusFailed =>
                   mret (Json 500 (VerifyFailedBody
                                     "Failed to verify transaction status"
                                     (paymentStatus donation)))
               | StatusOk data =>
                   let mswipeStatus := sd_status data in
                   donation ←
                     (if decide (paymentStatus donation = PENDING
                                 ∧ mswipeStatus ≠ PENDING) then
                        match castString (js_or (sd_paymentId data) (sd_ipgId data)),
                              castString (sd_ipgId data) with
                        | Some txref, Some ipg =>
                            let resp := mswipePaymentResponse donation in
                            donation ← save i
                              (set_processor_refs
                                 (set_status donation mswipeStatus
                                    (legacy_of mswipeStatus))
                                 txref ipg
                                 {| sr_link := sr_link resp;
                                    sr_callback := sr_callback resp;
                                    sr_statusCheck := Some data |});
                            (if decide (mswipeStatus = SUCCESS)
                             then sendDonationEmail donation else mret tt);;
                            mret donation
                        | _, _ => throw OtherError
                        end
                      else mret donation);
                   mret (Json 200 (VerifiedBody
                                     (donationRef donation)
                                     (paymentStatus donation) data
                                     (amount donation)
                                     (mswipeTransactionRef donation)
                                     (updatedAt donation)))
               end
           | _ =>
               mret (Json 400 (UnverifiableBody
                                 "Transaction ID not available for verification"
                                 (paymentStatus donation)))
           end
       end)
    (fun _ => mret internal_error).

End Controller.

(** ** Sequences of requests *)

Inductive Call : Type :=
| Initiate (b : InitiateBody)
| Callback (cb : CallbackData)
| Verify (ref : string).

Definition handle (E : Env) (c : Call) : M Response :=
  match c with
  | Initiate b => initiatePayment E b
  | Callback cb => handleCallback E cb
  | Verify ref => verifyTransaction E ref
  end.

(** The world after one request has been handled. *)
Definition step (E : Env) (c : Call) (w : World) : World :=
  snd (handle E c w).

(** The world after a sequence of requests, each with its own environment. *)
Fixpoint run (calls : list (Env * Call)) (w : World) : World :=
  match calls with
  | [] => w
  | (E, c) :: rest => run rest (step E c w)
  end.

(** ** What the handlers write and answer, path by path *)

Section Paths.

Context (E : Env).

(** The answer of handleCallback once the donation is settled: without
    [amount] for a donation that had been settled before, with it after
    the update. *)
Definition callback_reply (d : Donation) (with_amount : bool) : Response :=
  if truthy (FRONTEND_PAYMENT_RESULT_URL E) then
    Redirect (FRONTEND_PAYMENT_RESULT_URL E) (status_lower (paymentStatus d))
      (donationRef d) (if with_amount then Some (amount d) else None)
  else if with_amount then
    Json 200 (CallbackResultBody (bool_decide (paymentStatus d = SUCCESS))
                (paymentStatus d) (donationRef d)
                (if decide (paymentStatus d = SUCCESS)
                 then "Payment successful" else "Payment failed"))
  else
    Json 200 (AlreadyProcessedBody "Donation already processed"
                (paymentStatus d)).

(** The document handleCallback writes on the update path. *)
Definition callback_update (cb : CallbackData) (v : Verification)
  (txref ipg : option string) (d : Donation) : Donation :=
  set_updatedAt
    (set_processor_refs
       (set_status d (v_status v) (legacy_of (v_status v))) txref ipg
       {| sr_link := sr_link (mswipePaymentResponse d);
          sr_callback := Some (callback_info v cb);
          sr_statusCheck := sr_statusCheck (mswipePaymentResponse d) |})
    (now E).

Definition notify_if_success (d : Donation) (w : World) : World :=
  if decide (paymentStatus d = SUCCESS)
  then snd (sendDonationEmail d w) else w.

(** The document verifyTransaction writes when the status has changed. *)
Definition verify_update (data : StatusData) (txref ipg : option string)
  (d : Donation) : Donation :=
  set_updatedAt
    (set_processor_refs
       (set_status d (sd_status data) (legacy_of (sd_status data))) txref ipg
       {| sr_link := sr_link (mswipePaymentResponse d);
          sr_callback := sr_callback (mswipePaymentResponse d);
          sr_statusCheck := Some data |})
    (now E).

Definition order_of (b : InitiateBody) : OrderData :=
  {| od_name := b_fullName b;
     od_email := b_email b;
     od_mobile := b_phoneNumber b;
     od_amount := ToNumber (b_amount b);
     od_orderId := fresh_orderId E;
     od_donationRef := fresh_donationRef E;
     od_purpose := js_or (b_purpose b) (b_reasonForDonation b) |}.

(** The document of initiatePayment as first stored. *)
Definition pending_donation (b : InitiateBody) : Donation :=
  set_updatedAt (new_donation E b (fresh_donationRef E) (fresh_orderId E))
    (now E).

(** What initiatePayment requires before it contacts the processor. *)
Definition accepted (b : InitiateBody) (w : World) : Prop :=
  isConfigured E = true ∧
  basic_validation E b = Some [] ∧
  schema_valid E b (new_donation E b (fresh_donationRef E) (fresh_orderId E))
    = true ∧
  list_find (λ x, donationRef x = fresh_donationRef E) (donations w) = None.

End Paths.

(** ** Properties used in the statements *)





(** A response that reports an outcome rather than an error: a redirect
    to the result page or a 200. *)
Definition success_shaped (r : Response) : Prop :=
  match r with
  | Redirect _ _ _ _ => True
  | Json code _ => code = 200
  end.

(** The polling identifier of a donation is missing: [!transId]. *)
Definition no_polling_id (d : Donation) : Prop :=
  mswipeTransId d = None ∨ mswipeTransId d = Some "".

(** ** A sample donor, donation and processor, for evaluating the handlers *)

Definition sample_env (front : JsVal) (tok : Axios TokenReply)
  (pay : Axios PaymentReply) (det : Axios DetailsReply) : Env :=
  {| MSWIPE_USER_ID := VStr "merchant-user";
     MSWIPE_CLIENT_ID := VStr "merchant-client";
     MSWIPE_PASSWORD := VStr "merchant-secret";
     MSWIPE_CUST_CODE := VStr "merchant-code";
     FRONTEND_PAYMENT_RESULT_URL := front;
     now := 1700000000000;
     fresh_donationRef := "CMV17000000000004821";
     fresh_orderId := "CMV17000000000000057";
     reply_token := tok;
     reply_payment := pay;
     reply_details := det;
     isEmail := str_nonempty;
     escape := λ s, s;
     jwt_exp := λ _, None;
     url_TransID := λ _, None;
     Number_toString := λ _, "0";
     findOne_other_key := λ _ _, Ok None |}.

(** No result page configured, processor unreachable. *)
Definition offline_env : Env := sample_env VUndef Rejected Rejected Rejected.

Definition sample_donation (st : PaymentStatus) (txref transId : option string)
  : Donation :=
  {| fullName := "Asha Rao";
     email := "asha@example.org";
     amount := num_of_Z 100;
     donationRef := "CMV1";
     status := match st with
               | PENDING => pending
               | SUCCESS => completed
               | FAILED => failed
               end;
     paymentStatus := st;
     mswipeOrderId := Some "ORD1";
     mswipeTransactionRef := txref;
     mswipeIpgId := None;
     mswipeTransId := transId;
     mswipePaymentResponse := no_response;
     updatedAt := 1690000000000 |}.

Definition sample_world (d : Donation) : World :=
  with_donations initial_world [d].

Definition sample_callback (inv ipg tran_status tran_amount : JsVal)
  : CallbackData :=
  {| IPG_ID := ipg;
     ME_InvNo := inv;
     TRAN_STATUS := tran_status;
     TranAmount := tran_amount;
     RRN := VStr "RRN7";
     CardType := VStr "visa";
     CardNumber := VUndef;
     DateTime := VUndef;
     RC := VUndef;
     RC_DESC := VUndef;
     CUST_EMAIL := VUndef;
     CustMobNr := VUndef;
     ME_NAME := VUndef;
     MerID := VUndef;
     TermID := VUndef;
     WP_ID := VUndef;
     EX_NOTES := [] |}.

Definition sample_body : InitiateBody :=
  {| b_fullName := VStr "Asha Rao";
     b_email := VStr "asha@example.org";
     b_phoneNumber := VStr "9876543210";
     b_amount := VNum (num_of_Z 100);
     b_purpose := VUndef;
     b_reasonForDonation := VStr "General Donation";
     b_rest_valid := true |}.

(** Donations of 100 under order ORD1, in each state. *)
Definition open_donation : Donation :=
  sample_donation PENDING None (Some "T1").
Definition unpolled_donation : Donation :=
  sample_donation PENDING None None.
Definition paid_donation : Donation :=
  sample_donation SUCCESS (Some "RRN7") (Some "T1").
Definition failed_donation : Donation :=
  sample_donation FAILED None (Some "T1").

(** Callbacks for order ORD1 that report 'approved' with a given amount. *)
Definition approved_callback (tran_amount : string) : CallbackData :=
  sample_callback (VStr "ORD1") (VStr "IPG9") (VStr "approved")
    (VStr tran_amount).



(** The processor's record of a transaction with a given status code, and
    an environment in which the status query returns it. *)
Definition sample_txn (code : JsVal) : TxnData :=
  {| td_IPG_ID := VStr "IPG9";
     td_Amount := VStr "100";
     td_Cust_Code := VUndef;
     td_MID := VUndef;
     td_TID := VUndef;
     td_Payment_Status := code;
     td_Payment_Desc := VUndef;
     td_Order_Id := VStr "ORD1";
     td_Payment_Id := VStr "RRN7";
     td_TrxDateTime := VUndef;
     td_CardNumber := VUndef;
     td_CardType := VUndef;
     td_PaymentType := VUndef;
     td_Created_On := VUndef |}.

Definition status_env (code : JsVal) : Env :=
  sample_env VUndef Rejected Rejected
    (Resolved {| dr_Status := VStr "True";
                 dr_Data0 := Some (sample_txn code);
                 dr_ResponseMessage := VUndef |}).

(** The processor grants a token and a payment link. *)
Definition granted_token : JsVal := VStr "header.payload.signature".

Definition sample_link : PaymentReply :=
  {| pl_status := VStr "True";
     pl_smslink := VStr "https://pay.example/options?TransID=T1";
     pl_txn_id := VStr "IPG9";
     pl_responsecode := VStr "200";
     pl_responsemessage := VStr "ok";
     pl_MessageContent := VUndef;
     pl_ExtraNotes := [] |}.

Definition online_env : Env :=
  sample_env VUndef
    (Resolved {| tk_status := VStr "true"; tk_token := granted_token;
                 tk_msg := VUndef |})
    (Resolved sample_link) Rejected.

(** A service that holds a token expiring two hours from now. *)
Definition cached_world : World :=
  with_token initial_world (VStr "cached-token")
    (Some (num_of_Z (now online_env + 2 * 60 * 60 * 1000))).

(** ** The read-only handler, the forced refresh and the service report *)

(** The answers of getDonationStatus: an error with its HTTP status, or
    the 200 report. [createdAt] is not among the fields of [Donation] kept
    here and is left out of the report. *)
Inductive StatusAnswer : Type :=
| StatusError (code : nat) (error : string)
| StatusReport (donationRef : string) (status : PaymentStatus)
    (amount : JsNum) (transactionRef ipgId : option string) (updatedAt : Z).

(** [exports.getDonationStatus], GET /api/mswipe/status/:donationRef. *)
Definition getDonationStatus (ref : string) : M StatusAnswer :=
  try_catch
    (if negb (str_nonempty ref) then
       mret (StatusError 400 "Donation reference is required")
     else
       found ← findOne_by_ref ref;
       match found with
       | None => mret (StatusError 404 "Donation not found")
       | Some (_, donation) =>
           mret (StatusReport (donationRef donation)
                   (paymentStatus donation) (amount donation)
                   (mswipeTransactionRef donation) (mswipeIpgId donation)
                   (updatedAt donation))
       end)
    (fun _ => mret (StatusError 500 "Internal server error")).

(** [refreshToken]: forget the cached token, then generate one. *)
Definition refreshToken (E : Env) : M TokenResult :=
  w ← get_world;
  put_world (with_token w VNull None);;
  generateToken E.

(** The object of [getEnvironmentInfo]. *)
Record EnvironmentInfo : Type := {
  info_environment : string;
  info_baseUrl : string;
  info_configured : bool;
  info_hasValidToken : bool
}.

(** [getEnvironmentInfo]; [mswipe_env] is process.env.MSWIPE_ENV, which the
    constructor compares with 'production'. *)
Definition getEnvironmentInfo (E : Env) (mswipe_env : JsVal) (w : World)
  : EnvironmentInfo :=
  let isProduction := is_str mswipe_env "production" in
  {| info_environment := if isProduction then "production" else "uat";
     info_baseUrl := if isProduction then "https://pbl.mswipe.com"
                     else "https://dcuat.mswipetech.co.in";
     info_configured := isConfigured E;
     info_hasValidToken :=
       truthy (cachedToken w) &&
       match tokenExpiry w with
       | Some e => num_truthy e && num_gtb e (num_of_Z (now E))
       | None => false
       end |}.

(** ** Generated identifiers *)

(** The decimal digits of a non-negative integer, as [String(n)] and
    string concatenation print it. *)
Definition decimal (n : N) : string :=
  NilEmpty.string_of_uint (N.to_uint n).

Fixpoint zeros (k : nat) : string :=
  match k with
  | O => EmptyString
  | S k' => String "0" (zeros k')
  end.

(** [s.padStart(len, '0')]. *)
Definition padStart (len : nat) (s : string) : string :=
  zeros (len - String.length s) ++ s.

(** [generateOrderId]: [timestamp] is Date.now() and [random] is
    Math.floor(Math.random() * 10000). *)
Definition generateOrderId (timestamp random : N) : string :=
  "CMV" ++ decimal timestamp ++ padStart 4 (decimal random).

(** [generateRequestId], with Math.floor(Math.random() * 100000). *)
Definition generateRequestId (timestamp random : N) : string :=
  "REQ" ++ decimal timestamp ++ padStart 5 (decimal random).

(** [generateDonationRef] of the controller: no padding. *)
Definition generateDonationRef (timestamp random : N) : string :=
  "CMV" ++ decimal timestamp ++ decimal random.

(** ** Properties of documents and worlds used below *)

(** What [sendDonationEmail] is handed for a donation. *)
Definition mail_of (d : Donation) : Mail :=
  {| mail_to := email d; mail_name := fullName d;
     mail_donationRef := donationRef d;
     mail_transactionRef := mswipeTransactionRef d;
     mail_amount := amount d |}.

(** The fields no handler writes after the request that created the
    document. *)
Definition same_identity (d d' : Donation) : Prop :=
  donationRef d' = donationRef d ∧ amount d' = amount d ∧
  mswipeOrderId d' = mswipeOrderId d ∧ mswipeTransId d' = mswipeTransId d ∧
  fullName d' = fullName d ∧ email d' = email d.

(** The legacy [status] agrees with [paymentStatus]. *)
Definition legacy_consistent (d : Donation) : Prop :=
  (status d = completed ↔ paymentStatus d = SUCCESS) ∧
  (status d = pending → paymentStatus d = PENDING) ∧
  (paymentStatus d = FAILED → status d = failed).

(** No two donations share a [donationRef]. *)
Definition refs_unique (w : World) : Prop :=
  NoDup (donationRef <$> donations w).


(** ** Conditions on the processor's replies and on an order *)

(** The processor does not grant a token: the call is rejected, or the
    reply's status flag is neither 'true' nor true. *)
Definition token_refused (E : Env) : Prop :=
  ∀ data, reply_token E = Resolved data →
          is_str (tk_status data) "true" || is_true (tk_status data) = false.

(** All five fields createOrder requires are present. *)
Definition order_complete (o : OrderData) : Prop :=
  truthy (od_name o) = true ∧ truthy (od_email o) = true ∧
  truthy (od_mobile o) = true ∧ num_truthy (od_amount o) = true ∧
  str_nonempty (od_orderId o) = true.

(** The reply to the payment-link call reports success and carries a
    link. *)
Definition link_granted (reply : PaymentReply) : Prop :=
  is_str (pl_status reply) "True" || is_true (pl_status reply)
    || is_str (pl_status reply) "true" = true ∧
  truthy (pl_smslink reply) = true.

(** The [data] object createOrder builds from such a reply. *)
Definition order_info (E : Env) (reply : PaymentReply) : OrderInfo :=
  {| oi_paymentUrl := pl_smslink reply;
     oi_txnId := pl_txn_id reply;
     oi_transId := url_TransID E (pl_smslink reply);
     oi_mswipeResponse :=
       {| li_txn_id := pl_txn_id reply;
          li_responsecode := pl_responsecode reply;
          li_responsemessage := pl_responsemessage reply;
          li_messageContent := pl_MessageContent reply;
          li_extraNotes := pl_ExtraNotes reply |} |}.

(** ** More sample data *)

Definition sample_order : OrderData :=
  {| od_name := VStr "Asha Rao";
     od_email := VStr "asha@example.org";
     od_mobile := VStr "9876543210";
     od_amount := num_of_Z 100;
     od_orderId := "ORD1";
     od_donationRef := "CMV1";
     od_purpose := VStr "General Donation" |}.

(** The same order without an email address. *)
Definition order_without_email : OrderData :=
  {| od_name := VStr "Asha Rao";
     od_email := VUndef;
     od_mobile := VStr "9876543210";
     od_amount := num_of_Z 100;
     od_orderId := "ORD1";
     od_donationRef := "CMV1";
     od_purpose := VStr "General Donation" |}.

(** A service whose cached token expires in half an hour. *)
Definition expiring_world : World :=
  with_token initial_world (VStr "cached-token")
    (Some (num_of_Z (now online_env + 30 * 60 * 1000))).

(** A donation that already holds the reference the sample environment
    generates next. *)
Definition clashing_donation : Donation :=
  {| fullName := "Ravi Iyer";
     email := "ravi@example.org";
     amount := num_of_Z 501;
     donationRef := fresh_donationRef offline_env;
     status := completed;
     paymentStatus := SUCCESS;
     mswipeOrderId := Some "ORD0";
     mswipeTransactionRef := Some "RRN1";
     mswipeIpgId := Some "IPG1";
     mswipeTransId := Some "T0";
     mswipePaymentResponse := no_response;
     updatedAt := 1690000000000 |}.

(** The sample request with another amount. *)
Definition sample_body_with (amount : JsVal) : InitiateBody :=
  {| b_fullName := VStr "Asha Rao";
     b_email := VStr "asha@example.org";
     b_phoneNumber := VStr "9876543210";
     b_amount := amount;
     b_purpose := VUndef;
     b_reasonForDonation := VStr "General Donation";
     b_rest_valid := true |}.



(** Callbacks for order ORD1 that report 'pending', and an approved one
    for the order id the sample environment generates. *)
Definition pending_callback : CallbackData :=
  sample_callback (VStr "ORD1") (VStr "IPG9") (VStr "pending") (VStr "100").

Definition fresh_order_callback : CallbackData :=
  sample_callback (VStr (fresh_orderId online_env)) (VStr "IPG9")
    (VStr "APPROVED") (VStr "100.00").

(** * Proofs *)

(** ** The monad *)

Ltac unfold_monad :=
  unfold try_catch, mbind, M_bind, mret, M_ret, throw, get_world, put_world
    in *.

Section ServiceLemmas.

Context (E : Env).

Lemma axios_post_donations {A : Type} (r : Request) (reply : Axios A) w :
  donations (snd (axios_post r reply w)) = donations w.
Proof. unfold axios_post. by destruct reply. Qed.

Lemma generateToken_total w :
  ∃ r, fst (generateToken E w) = Ok r.
Proof.
  unfold generateToken, axios_post. unfold_monad.
  destruct (cache_fresh E w); [by eexists|].
  destruct (reply_token E) as [|data]; [by eexists|].
  destruct (is_str _ _ || is_true _); by eexists.
Qed.

Lemma generateToken_donations w :
  donations (snd (generateToken E w)) = donations w.
Proof.
  unfold generateToken, axios_post. unfold_monad.
  destruct (cache_fresh E w); [done|].
  destruct (reply_token E) as [|data]; [done|].
  by destruct (is_str _ _ || is_true _).
Qed.

(** createOrder never throws and touches neither the collection nor the
    outbox. *)
Lemma createOrder_run o w :
  ∃ r w', createOrder E o w = (Ok r, w') ∧
          donations w' = donations w ∧ outbox w' = outbox w.
Proof.
  unfold createOrder. unfold_monad.
  destruct (falsy _ || falsy _ || falsy _ || negb _ || negb _);
    [by eexists _, _|].
  pose proof (generateToken_total w) as [r Hr].
  pose proof (generateToken_donations w) as Hd.
  assert (outbox (snd (generateToken E w)) = outbox w) as Ho.
  { unfold generateToken, axios_post. unfold_monad.
    destruct (cache_fresh E w); [done|].
    destruct (reply_token E) as [|data]; [done|].
    by destruct (is_str _ _ || is_true _). }
  destruct (generateToken E w) as [r' w1]. simpl in *. subst r'.
  destruct r as [token|]; [|by eexists _, _].
  unfold axios_post.
  destruct (reply_payment E) as [|data]; [by eexists _, _|].
  destruct (is_str _ _ || is_true _ || is_str _ _); [|by eexists _, _].
  destruct (falsy (pl_smslink data)); by eexists _, _.
Qed.

Lemma checkTransactionStatus_run transId w :
  ∃ r w', checkTransactionStatus E transId w = (Ok r, w') ∧
          donations w' = donations w ∧ outbox w' = outbox w ∧
          cachedToken w' = cachedToken w ∧ tokenExpiry w' = tokenExpiry w.
Proof.
  unfold checkTransactionStatus, axios_post. unfold_monad.
  destruct (negb (str_nonempty transId)); [by eexists _, _|].
  destruct (reply_details E) as [|data]; [by eexists _, _|].
  destruct (is_str _ _ || is_true _); [|by eexists _, _].
  destruct (dr_Data0 data); by eexists _, _.
Qed.

End ServiceLemmas.

Section ControllerLemmas.

Context (E : Env).

Lemma findOne_by_order_world key w :
  snd (findOne_by_order E key w) = w.
Proof.
  unfold findOne_by_order.
  destruct key; try done;
    destruct (findOne_other_key E _ _) as [[?|]|]; done.
Qed.

Lemma findOne_by_order_lookup key w i d :
  fst (findOne_by_order E key w) = Ok (Some (i, d)) →
  donations w !! i = Some d.
Proof.
  unfold findOne_by_order.
  destruct key;
    try (destruct (findOne_other_key E _ _) as [[j|]|]; simpl; try done;
         destruct (donations w !! j) eqn:Hj; simpl; intros [= <- <-]; done).
  simpl. intros [= H]. by apply list_find_Some in H as [? _].
Qed.

Lemma findOne_by_order_eq key w r :
  fst (findOne_by_order E key w) = r →
  findOne_by_order E key w = (r, w).
Proof.
  intros <-. rewrite <- (findOne_by_order_world key w) at 3.
  by destruct (findOne_by_order E key w).
Qed.

(** *** handleCallback, path by path *)

Lemma handleCallback_invalid cb w e :
  verifyCallback cb = Invalid e →
  handleCallback E cb w = (Ok (Json 400 (ErrorBody "Invalid callback data")), w).
Proof. intros Hv. unfold handleCallback. unfold_monad. by rewrite Hv. Qed.

Lemma handleCallback_lookup_throws cb w v e :
  verifyCallback cb = Valid v →
  fst (findOne_by_order E (v_orderId v) w) = Thrown e →
  handleCallback E cb w = (Ok internal_error, w).
Proof.
  intros Hv Hf%findOne_by_order_eq. unfold handleCallback. unfold_monad.
  by rewrite Hv, Hf.
Qed.

Lemma handleCallback_not_found cb w v :
  verifyCallback cb = Valid v →
  fst (findOne_by_order E (v_orderId v) w) = Ok None →
  handleCallback E cb w = (Ok (Json 404 (ErrorBody "Donation not found")), w).
Proof.
  intros Hv Hf%findOne_by_order_eq. unfold handleCallback. unfold_monad.
  by rewrite Hv, Hf.
Qed.

Lemma handleCallback_settled cb w v i d :
  verifyCallback cb = Valid v →
  fst (findOne_by_order E (v_orderId v) w) = Ok (Some (i, d)) →
  paymentStatus d ≠ PENDING →
  handleCallback E cb w = (Ok (callback_reply E d false), w).
Proof.
  intros Hv Hf%findOne_by_order_eq Hs. unfold handleCallback, callback_reply.
  unfold_monad. rewrite Hv, Hf.
  destruct (decide (paymentStatus d ≠ PENDING)); [|done].
  by destruct (truthy _).
Qed.

Lemma handleCallback_mismatch cb w v i d :
  verifyCallback cb = Valid v →
  fst (findOne_by_order E (v_orderId v) w) = Ok (Some (i, d)) →
  paymentStatus d = PENDING →
  amount_mismatch v d = true →
  handleCallback E cb w =
    (Ok (Json 400 (ErrorBody "Amount verification failed")),
     with_donations w
       (<[i := set_updatedAt (set_status d FAILED failed) (now E)]> (donations w))).
Proof.
  intros Hv Hf%findOne_by_order_eq Hs Hm. unfold handleCallback.
  unfold_monad. rewrite Hv, Hf.
  destruct (decide (paymentStatus d ≠ PENDING)); [done|].
  by rewrite Hm.
Qed.

Lemma handleCallback_update cb w v i d txref ipg :
  verifyCallback cb = Valid v →
  fst (findOne_by_order E (v_orderId v) w) = Ok (Some (i, d)) →
  paymentStatus d = PENDING →
  amount_mismatch v d = false →
  castString E (v_transactionRef v) = Some txref →
  castString E (v_ipgId v) = Some ipg →
  handleCallback E cb w =
    (Ok (callback_reply E (callback_update E cb v txref ipg d) true),
     notify_if_success (callback_update E cb v txref ipg d)
       (with_donations w
          (<[i := callback_update E cb v txref ipg d]> (donations w)))).
Proof.
  intros Hv Hf%findOne_by_order_eq Hs Hm Ht Hi.
  unfold handleCallback, callback_reply, notify_if_success.
  unfold_monad. rewrite Hv, Hf.
  destruct (decide (paymentStatus d ≠ PENDING)); [done|].
  rewrite Hm, Ht, Hi. unfold save. fold (callback_update E cb v txref ipg d).
  destruct (decide (paymentStatus _ = SUCCESS));
    destruct (truthy _); reflexivity.
Qed.

Lemma handleCallback_cast_fails cb w v i d :
  verifyCallback cb = Valid v →
  fst (findOne_by_order E (v_orderId v) w) = Ok (Some (i, d)) →
  paymentStatus d = PENDING →
  amount_mismatch v d = false →
  castString E (v_transactionRef v) = None ∨ castString E (v_ipgId v) = None →
  handleCallback E cb w = (Ok internal_error, w).
Proof.
  intros Hv Hf%findOne_by_order_eq Hs Hm Hc.
  unfold handleCallback. unfold_monad. rewrite Hv, Hf.
  destruct (decide (paymentStatus d ≠ PENDING)); [done|].
  rewrite Hm.
  destruct Hc as [-> | Hc]; [done|]. rewrite Hc.
  by destruct (castString E (v_transactionRef v)).
Qed.


(** *** verifyTransaction *)

Lemma verifyTransaction_unverifiable ref w i d :
  str_nonempty ref = true →
  list_find (λ x, donationRef x = ref) (donations w) = Some (i, d) →
  no_polling_id d →
  verifyTransaction E ref w =
    (Ok (Json 400 (UnverifiableBody
                     "Transaction ID not available for verification"
                     (paymentStatus d))), w).
Proof.
  intros Hr Hf Hn. unfold verifyTransaction, findOne_by_ref. unfold_monad.
  rewrite Hr. simpl. rewrite Hf. by destruct Hn as [-> | ->].
Qed.


(** *** initiatePayment *)

Lemma initiatePayment_link_fails b w w1 :
  accepted E b w →
  createOrder E (order_of E b)
    (with_donations w (donations w ++ [pending_donation E b])) =
    (Ok OrderFailed, w1) →
  initiatePayment E b w =
    (Ok (Json 500 (InitiateFailedBody "Failed to initiate payment"
                     (fresh_donationRef E))),
     with_donations w1
       (donations w ++
          [set_updatedAt (set_status (pending_donation E b) FAILED failed)
             (now E)])).
Proof.
  intros (Hc & Hb & Hs & Hu) Ho.
  destruct (createOrder_run E (order_of E b)
              (with_donations w (donations w ++ [pending_donation E b])))
    as (r & w1' & Hrun & Hd & _).
  rewrite Ho in Hrun. injection Hrun as <- <-.
  unfold initiatePayment, save_new. unfold_monad.
  rewrite Hc, Hb, Hs. simpl. rewrite Hu.
  fold (pending_donation E b). fold (order_of E b). rewrite Ho.
  unfold save. simpl. rewrite Hd. simpl.
  f_equal. f_equal.
  rewrite insert_app_r_alt by lia. by rewrite Nat.sub_diag.
Qed.


End ControllerLemmas.

(** ** Steps and runs *)







Lemma handleCallback_writes E cb w :
  donations (snd (handleCallback E cb w)) = donations w ∨
  ∃ i d v,
    verifyCallback cb = Valid v ∧
    donations w !! i = Some d ∧ paymentStatus d = PENDING ∧
    (donations (snd (handleCallback E cb w)) =
       <[i := set_updatedAt (set_status d FAILED failed) (now E)]> (donations w)
     ∨ ∃ txref ipg,
         donations (snd (handleCallback E cb w)) =
           <[i := callback_update E cb v txref ipg d]> (donations w)).
Proof.
  destruct (verifyCallback cb) as [v|e] eqn:Hv.
  2:{ left. by rewrite (handleCallback_invalid E cb w e Hv). }
  destruct (fst (findOne_by_order E (v_orderId v) w)) as [[[i d]|]|ex] eqn:Hf.
  - destruct (decide (paymentStatus d = PENDING)) as [Hp|Hp].
    + pose proof (findOne_by_order_lookup E _ _ _ _ Hf) as Hi.
      destruct (amount_mismatch v d) eqn:Hm.
      { right. exists i, d, v. split; [done|]. split; [done|]. split; [done|].
        left. by rewrite (handleCallback_mismatch E cb w v i d Hv Hf Hp Hm). }
      destruct (castString E (v_transactionRef v)) as [txref|] eqn:Ht.
      2:{ left. rewrite (handleCallback_cast_fails E cb w v i d); auto. }
      destruct (castString E (v_ipgId v)) as [ipg|] eqn:Hg.
      2:{ left. rewrite (handleCallback_cast_fails E cb w v i d); auto. }
      right. exists i, d, v. split; [done|]. split; [done|]. split; [done|].
      right. exists txref, ipg.
      rewrite (handleCallback_update E cb w v i d txref ipg Hv Hf Hp Hm Ht Hg).
      unfold notify_if_success, sendDonationEmail.
      by destruct (decide _).
    + left. by rewrite (handleCallback_settled E cb w v i d Hv Hf Hp).
  - left. by rewrite (handleCallback_not_found E cb w v Hv Hf).
  - left. by rewrite (handleCallback_lookup_throws E cb w v ex Hv Hf).
Qed.



(** ** Numeric literals, evaluated *)

Example parseFloat_50 : parseFloat (VStr "50") = Fin (inject_Z 50).
Proof. reflexivity. Qed.

Example parseFloat_fraction :
  num_eqb (parseFloat (VStr " 12.50rupees")) (Fin (25 # 2)) = true.
Proof. reflexivity. Qed.

Example parseFloat_words : parseFloat (VStr "abc") = NaN.
Proof. reflexivity. Qed.

Example Number_hex : StringToNumber "0x10" = num_of_Z 16.
Proof. reflexivity. Qed.

Example Number_trailing : StringToNumber "12px" = NaN.
Proof. reflexivity. Qed.

(** ** The handlers on the sample data *)

Example initiation_creates_pending_donation :
  ∃ d w',
    initiatePayment online_env sample_body initial_world =
      (Ok (Json 200 (InitiatedBody (pl_smslink sample_link)
                       (fresh_donationRef online_env)
                       (fresh_orderId online_env))), w') ∧
    donations w' = [d] ∧ paymentStatus d = PENDING ∧
    mswipeTransactionRef d = None ∧
    requests w' =
      [CreatePBLAuthToken;
       MswipePayment (fresh_orderId online_env) (num_of_Z 100) granted_token].
Proof. eexists _, _. split; [vm_compute; reflexivity|]. by repeat split. Qed.

Example approved_callback_settles_success :
  ∃ d w',
    handleCallback offline_env (approved_callback "100")
      (sample_world open_donation) =
      (Ok (Json 200 (CallbackResultBody true SUCCESS "CMV1"
                       "Payment successful")), w') ∧
    donations w' = [d] ∧ paymentStatus d = SUCCESS ∧
    mswipeTransactionRef d = Some "RRN7" ∧
    List.length (outbox w') = 1%nat.
Proof. eexists _, _. split; [vm_compute; reflexivity|]. by repeat split. Qed.

Example duplicate_callback_answer :
  handleCallback offline_env (approved_callback "100")
    (sample_world failed_donation) =
  (Ok (Json 200 (AlreadyProcessedBody "Donation already processed" FAILED)),
   sample_world failed_donation).
Proof. reflexivity. Qed.

(** ** C1: the status settles once *)



(** ** C2: a declared amount of zero passes the amount check *)

(** C2. Every callback that declares an amount different from the stored
    one must settle a PENDING donation as FAILED. Evaluated on a donation
    of 100 and a callback with TRAN_STATUS 'approved' and TranAmount '0':
    the amount is declared and differs from the stored one, yet the
    donation is settled as SUCCESS, because the parsed amount 0 is falsy
    and the comparison is never made. *)
Theorem zero_amount_callback_settles_success :
  truthy (TranAmount (approved_callback "0")) = true ∧
  num_eqb (parseFloat (TranAmount (approved_callback "0")))
    (amount open_donation) = false ∧
  paymentStatus open_donation = PENDING ∧
  ∃ d',
    donations (snd (handleCallback offline_env (approved_callback "0")
                      (sample_world open_donation))) !! 0 = Some d' ∧
    paymentStatus d' = SUCCESS.
Proof.
  split; [reflexivity|]. split; [reflexivity|]. split; [reflexivity|].
  eexists. split; [vm_compute; reflexivity|reflexivity].
Qed.

(** ** C3: the answer to an amount mismatch *)

(** C3, as stated, at a donation of 100 and a callback declaring 50: the
    mismatch is detected and the answer is not a 200 or a redirect. *)
Lemma mismatch_answer_is_an_error :
  ∃ v resp w',
    verifyCallback (approved_callback "50") = Valid v ∧
    amount_mismatch v open_donation = true ∧
    handleCallback offline_env (approved_callback "50")
      (sample_world open_donation) = (Ok resp, w') ∧
    ¬ success_shaped resp.
Proof.
  eexists _, _, _. split; [reflexivity|]. split; [reflexivity|].
  split; [vm_compute; reflexivity|]. simpl. discriminate.
Qed.

(** C3, amended. When handleCallback detects an amount mismatch on a
    PENDING donation, it stores the donation as FAILED and answers 400
    with the error 'Amount verification failed'; no processor call is made
    and no notification is sent. *)
Theorem amount_mismatch_answers_400 (E : Env) (cb : CallbackData) (w : World)
  (v : Verification) (i : nat) (d : Donation) :
  verifyCallback cb = Valid v →
  fst (findOne_by_order E (v_orderId v) w) = Ok (Some (i, d)) →
  paymentStatus d = PENDING →
  amount_mismatch v d = true →
  ∃ w' d',
    handleCallback E cb w =
      (Ok (Json 400 (ErrorBody "Amount verification failed")), w') ∧
    donations w' !! i = Some d' ∧ paymentStatus d' = FAILED ∧
    requests w' = requests w ∧ outbox w' = outbox w.
Proof.
  intros Hv Hf Hp Hm.
  rewrite (handleCallback_mismatch E cb w v i d Hv Hf Hp Hm).
  exists (with_donations w
            (<[i := set_updatedAt (set_status d FAILED failed) (now E)]>
               (donations w))),
         (set_updatedAt (set_status d FAILED failed) (now E)).
  split; [reflexivity|]. simpl. split; [|done].
  apply list_lookup_insert_eq.
  eapply lookup_lt_Some, findOne_by_order_lookup, Hf.
Qed.

Lemma amount_mismatch_answers_400_witness :
  ∃ w' d',
    handleCallback offline_env (approved_callback "50")
      (sample_world open_donation) =
      (Ok (Json 400 (ErrorBody "Amount verification failed")), w') ∧
    donations w' !! 0 = Some d' ∧ paymentStatus d' = FAILED ∧
    requests w' = requests (sample_world open_donation) ∧
    outbox w' = outbox (sample_world open_donation).
Proof.
  eapply (amount_mismatch_answers_400 offline_env (approved_callback "50")
            (sample_world open_donation) _ 0 open_donation);
    reflexivity.
Defined.

(** ** C4: the processor transaction reference *)




(** ** C5: rejected callbacks *)







(** ** C6: verification without a polling identifier *)

(** C6. When the donation found for the reference has no polling
    identifier ([mswipeTransId] unset or empty), verifyTransaction answers
    400 'Transaction ID not available for verification' with the current
    status, makes no call to the processor and leaves the world, the
    donation included, as it was. *)
Theorem verify_without_polling_id (E : Env) (ref : string) (w : World)
  (i : nat) (d : Donation) :
  str_nonempty ref = true →
  list_find (λ x, donationRef x = ref) (donations w) = Some (i, d) →
  no_polling_id d →
  verifyTransaction E ref w =
    (Ok (Json 400 (UnverifiableBody
                     "Transaction ID not available for verification"
                     (paymentStatus d))), w) ∧
  requests (snd (verifyTransaction E ref w)) = requests w ∧
  donations (snd (verifyTransaction E ref w)) = donations w.
Proof.
  intros Hr Hf Hn.
  by rewrite (verifyTransaction_unverifiable E ref w i d Hr Hf Hn).
Qed.

Lemma verify_without_polling_id_witness :
  verifyTransaction (status_env (VNum (num_of_Z 1))) "CMV1"
    (sample_world unpolled_donation) =
    (Ok (Json 400 (UnverifiableBody
                     "Transaction ID not available for verification"
                     (paymentStatus unpolled_donation))),
     sample_world unpolled_donation) ∧
  requests (snd (verifyTransaction (status_env (VNum (num_of_Z 1))) "CMV1"
                   (sample_world unpolled_donation)))
    = requests (sample_world unpolled_donation) ∧
  donations (snd (verifyTransaction (status_env (VNum (num_of_Z 1))) "CMV1"
                    (sample_world unpolled_donation)))
    = donations (sample_world unpolled_donation).
Proof.
  apply (verify_without_polling_id (status_env (VNum (num_of_Z 1))) "CMV1"
           (sample_world unpolled_donation) 0 unpolled_donation);
    [reflexivity|reflexivity|left; reflexivity].
Defined.

(** ** C7: the mapping of the processor's status code *)

Lemma is_int_2_not_1 v : is_int v 2 = true → is_int v 1 = false.
Proof.
  destruct v as [| | |[| | |q]| |]; simpl; try done.
  intros H%Qeq_bool_iff. apply not_true_is_false.
  intros H1%Qeq_bool_iff. rewrite H in H1. discriminate H1.
Qed.

(** C7. When the processor answers the status query with a transaction
    record, checkTransactionStatus returns exactly one of the three
    statuses for it: SUCCESS when Payment_Status is the number 1, PENDING
    when it is the number 2, and FAILED for every other value, absent or
    unrecognised ones included. *)
Theorem payment_status_code_mapping (E : Env) (transId : string) (w : World)
  (reply : DetailsReply) (txn : TxnData) :
  str_nonempty transId = true →
  reply_details E = Resolved reply →
  is_str (dr_Status reply) "True" || is_true (dr_Status reply) = true →
  dr_Data0 reply = Some txn →
  ∃ st,
    checkTransactionStatus E transId w =
      (Ok (StatusOk {| sd_status := st; sd_txn := txn |}),
       with_request w (GetPBLTransactionDetails transId)) ∧
    (is_int (td_Payment_Status txn) 1 = true → st = SUCCESS) ∧
    (is_int (td_Payment_Status txn) 2 = true → st = PENDING) ∧
    (is_int (td_Payment_Status txn) 1 = false →
     is_int (td_Payment_Status txn) 2 = false → st = FAILED).
Proof.
  intros Ht Hr Hs Hd. exists (map_payment_status (td_Payment_Status txn)).
  split.
  - unfold checkTransactionStatus, axios_post. unfold_monad.
    rewrite Ht, Hr. simpl. by rewrite Hs, Hd.
  - unfold map_payment_status. split; [by intros ->|]. split.
    + intros H2. by rewrite (is_int_2_not_1 _ H2), H2.
    + by intros -> ->.
Qed.

Lemma payment_status_code_mapping_witness :
  (∃ st,
      fst (checkTransactionStatus (status_env (VNum (num_of_Z 1))) "T1"
             initial_world)
        = Ok (StatusOk {| sd_status := st;
                          sd_txn := sample_txn (VNum (num_of_Z 1)) |})
      ∧ st = SUCCESS) ∧
  (∃ st,
      fst (checkTransactionStatus (status_env (VNum (num_of_Z 2))) "T1"
             initial_world)
        = Ok (StatusOk {| sd_status := st;
                          sd_txn := sample_txn (VNum (num_of_Z 2)) |})
      ∧ st = PENDING) ∧
  (∃ st,
      fst (checkTransactionStatus (status_env VUndef) "T1" initial_world)
        = Ok (StatusOk {| sd_status := st; sd_txn := sample_txn VUndef |})
      ∧ st = FAILED).
Proof.
  split; [|split].
  - destruct (payment_status_code_mapping (status_env (VNum (num_of_Z 1)))
                "T1" initial_world _ (sample_txn (VNum (num_of_Z 1)))
                eq_refl eq_refl eq_refl eq_refl) as (st & Hrun & H1 & _).
    exists st. split; [by rewrite Hrun|]. apply H1. reflexivity.
  - destruct (payment_status_code_mapping (status_env (VNum (num_of_Z 2)))
                "T1" initial_world _ (sample_txn (VNum (num_of_Z 2)))
                eq_refl eq_refl eq_refl eq_refl) as (st & Hrun & _ & H2 & _).
    exists st. split; [by rewrite Hrun|]. apply H2. reflexivity.
  - destruct (payment_status_code_mapping (status_env VUndef)
                "T1" initial_world _ (sample_txn VUndef)
                eq_refl eq_refl eq_refl eq_refl) as (st & Hrun & _ & _ & H3).
    exists st. split; [by rewrite Hrun|]. apply H3; reflexivity.
Defined.

(** ** C8: the token cache *)

Lemma num_gtb_nonneg_truthy e k :
  (0 ≤ k)%Z → num_gtb e (num_of_Z k) = true → num_truthy e = true.
Proof.
  intros Hk. destruct e as [| | |q]; simpl; try done.
  intros H%negb_true_iff. apply negb_true_iff, not_true_is_false.
  intros Heq%Qeq_bool_iff.
  assert (Qle_bool q (inject_Z k) = true) as Hle; [|congruence].
  apply Qle_bool_iff. rewrite Heq. unfold Qle. simpl. lia.
Qed.

Lemma generateToken_miss E w :
  cache_fresh E w = false →
  requests (snd (generateToken E w)) = requests w ++ [CreatePBLAuthToken].
Proof.
  intros Hm. unfold generateToken, axios_post. unfold_monad. rewrite Hm.
  destruct (reply_token E) as [|data]; [done|].
  by destruct (is_str _ _ || is_true _).
Qed.



(** ** C9: link creation fails during initiation *)

Lemma generateToken_frame E w ds :
  generateToken E (with_donations w ds) =
    (fst (generateToken E w), with_donations (snd (generateToken E w)) ds).
Proof.
  unfold generateToken, axios_post. unfold_monad.
  change (cache_fresh E (with_donations w ds)) with (cache_fresh E w).
  destruct (cache_fresh E w); [done|].
  destruct (reply_token E) as [|data]; [done|].
  by destruct (is_str _ _ || is_true _).
Qed.

(** The collection plays no part in createOrder. *)
Lemma createOrder_frame E o w ds :
  createOrder E o (with_donations w ds) =
    (fst (createOrder E o w), with_donations (snd (createOrder E o w)) ds).
Proof.
  unfold createOrder. unfold_monad.
  destruct (falsy _ || falsy _ || falsy _ || negb _ || negb _); [done|].
  rewrite generateToken_frame.
  destruct (generateToken E w) as [[[token|]|ex] w1]; simpl; try done.
  unfold axios_post.
  destruct (reply_payment E) as [|data]; [done|].
  destruct (is_str _ _ || is_true _ || is_str _ _); [|done].
  by destruct (falsy (pl_smslink data)).
Qed.

(** C9. When a valid initiation is accepted and createOrder reports a
    failure, the donation just created stays in the collection, now with
    [paymentStatus] FAILED, and the 500 answer carries its
    [donationRef]. *)
Theorem failed_link_creation_marks_failed (E : Env) (b : InitiateBody)
  (w w1 : World) :
  accepted E b w →
  createOrder E (order_of E b) w = (Ok OrderFailed, w1) →
  ∃ d,
    initiatePayment E b w =
      (Ok (Json 500 (InitiateFailedBody "Failed to initiate payment"
                       (donationRef d))),
       with_donations w1 (donations w ++ [d])) ∧
    donationRef d = fresh_donationRef E ∧
    paymentStatus d = FAILED ∧ status d = failed ∧
    mswipeOrderId d = Some (fresh_orderId E) ∧
    amount d = ToNumber (b_amount b).
Proof.
  intros Ha Ho.
  exists (set_updatedAt (set_status (pending_donation E b) FAILED failed) (now E)).
  split; [|done].
  rewrite (initiatePayment_link_fails E b w
             (with_donations w1 (donations w ++ [pending_donation E b]))
             Ha); [done|].
  by rewrite createOrder_frame, Ho.
Qed.

Lemma failed_link_creation_marks_failed_witness :
  ∃ d w1,
    initiatePayment offline_env sample_body initial_world =
      (Ok (Json 500 (InitiateFailedBody "Failed to initiate payment"
                       (donationRef d))),
       with_donations w1 (donations initial_world ++ [d])) ∧
    donationRef d = fresh_donationRef offline_env ∧
    paymentStatus d = FAILED ∧ status d = failed ∧
    mswipeOrderId d = Some (fresh_orderId offline_env) ∧
    amount d = ToNumber (b_amount sample_body).
Proof.
  destruct (failed_link_creation_marks_failed offline_env sample_body
              initial_world (with_request initial_world CreatePBLAuthToken))
    as (d & H).
  - repeat split; reflexivity.
  - reflexivity.
  - exists d, (with_request initial_world CreatePBLAuthToken). exact H.
Defined.

(** ** C10: SUCCESS needs an approved status *)

Lemma callback_status_success t :
  callback_status t = Some SUCCESS →
  ∃ s, t = VStr s ∧ toLowerCase s = "approved".
Proof.
  unfold callback_status. destruct (truthy t); [|done].
  destruct t as [| | | |s|]; try done.
  destruct (String.eqb (toLowerCase s) "approved") eqn:Ha.
  - intros _. exists s. split; [done|]. by apply String.eqb_eq.
  - by destruct (String.eqb (toLowerCase s) "pending").
Qed.

Lemma verifyCallback_status cb v :
  verifyCallback cb = Valid v →
  callback_status (TRAN_STATUS cb) = Some (v_status v).
Proof.
  unfold verifyCallback. destruct (falsy _ && falsy _); [done|].
  destruct (callback_status (TRAN_STATUS cb)); [|done].
  by intros [= <-].
Qed.

(** C10. The status verifyCallback computes is SUCCESS only when
    TRAN_STATUS is a string that lowercases to 'approved'; a missing
    TRAN_STATUS, or one that is neither 'approved' nor 'pending' in any
    letter case, gives FAILED; and handleCallback turns a donation into
    SUCCESS only for a callback whose TRAN_STATUS lowercases to
    'approved'. *)
Theorem success_requires_approved :
  (∀ cb v,
      verifyCallback cb = Valid v →
      (v_status v = SUCCESS →
       ∃ s, TRAN_STATUS cb = VStr s ∧ toLowerCase s = "approved") ∧
      (falsy (TRAN_STATUS cb) = true → v_status v = FAILED) ∧
      (∀ s, TRAN_STATUS cb = VStr s →
            toLowerCase s ≠ "approved" → toLowerCase s ≠ "pending" →
            v_status v = FAILED)) ∧
  (∀ E cb w i d d',
      donations w !! i = Some d →
      donations (snd (handleCallback E cb w)) !! i = Some d' →
      paymentStatus d ≠ SUCCESS →
      paymentStatus d' = SUCCESS →
      ∃ s, TRAN_STATUS cb = VStr s ∧ toLowerCase s = "approved").
Proof.
  split.
  - intros cb v Hv%verifyCallback_status. split; [|split].
    + intros Hs. rewrite Hs in Hv. by apply callback_status_success.
    + unfold falsy. intros Hf%negb_true_iff.
      unfold callback_status in Hv. rewrite Hf in Hv. congruence.
    + intros s Hs Ha Hp. rewrite Hs in Hv. unfold callback_status in Hv.
      destruct (truthy (VStr s)); [|congruence].
      apply String.eqb_neq in Ha, Hp. rewrite Ha, Hp in Hv. congruence.
  - intros E cb w i d d' Hi Hi' Hd Hd'.
    destruct (handleCallback_writes E cb w)
      as [Heq | (i0 & d0 & v & Hv & H0 & Hp & Hw)].
    { rewrite Heq in Hi'. congruence. }
    assert (i0 < List.length (donations w)) as Hlt by by eapply lookup_lt_Some.
    destruct (decide (i0 = i)) as [->|Hne].
    + destruct Hw as [Heq | (txref & ipg & Heq)]; rewrite Heq in Hi';
        rewrite list_lookup_insert_eq in Hi' by done;
        injection Hi' as <-; simpl in Hd'; [done|].
      apply verifyCallback_status in Hv. rewrite Hd' in Hv.
      by apply callback_status_success.
    + destruct Hw as [Heq | (txref & ipg & Heq)]; rewrite Heq in Hi';
        rewrite list_lookup_insert_ne in Hi' by done; congruence.
Qed.

Lemma success_requires_approved_witness :
  ∃ d' s,
    donations (snd (handleCallback offline_env
                      (sample_callback (VStr "ORD1") (VStr "IPG9")
                         (VStr "Approved") (VStr "100"))
                      (sample_world open_donation))) !! 0 = Some d' ∧
    paymentStatus d' = SUCCESS ∧
    VStr "Approved" = VStr s ∧ toLowerCase s = "approved".
Proof.
  destruct success_requires_approved as [_ H].
  destruct (H offline_env
              (sample_callback (VStr "ORD1") (VStr "IPG9")
                 (VStr "Approved") (VStr "100"))
              (sample_world open_donation) 0 open_donation _
              eq_refl eq_refl)
    as (s & Hs & Hl); [discriminate|reflexivity|].
  eexists _, s. split; [reflexivity|]. split; [reflexivity|]. by split.
Defined.

(** * Further properties of the handlers and the service *)

(** ** What each handler does to the world *)

Lemma checkTransactionStatus_world E t w :
  str_nonempty t = true →
  ∃ r, checkTransactionStatus E t w =
         (Ok r, with_request w (GetPBLTransactionDetails t)).
Proof.
  intros Ht. unfold checkTransactionStatus, axios_post. unfold_monad.
  rewrite Ht. simpl.
  destruct (reply_details E) as [|data]; [by eexists|].
  destruct (is_str _ _ || is_true _); [|by eexists].
  destruct (dr_Data0 data); by eexists.
Qed.

Lemma handleCallback_world E cb w :
  snd (handleCallback E cb w) = w ∨
  ∃ i d v,
    verifyCallback cb = Valid v ∧
    fst (findOne_by_order E (v_orderId v) w) = Ok (Some (i, d)) ∧
    paymentStatus d = PENDING ∧
    ((amount_mismatch v d = true ∧
      snd (handleCallback E cb w) =
        with_donations w
          (<[i := set_updatedAt (set_status d FAILED failed) (now E)]>
             (donations w)))
     ∨ ∃ txref ipg,
         amount_mismatch v d = false ∧
         castString E (v_transactionRef v) = Some txref ∧
         castString E (v_ipgId v) = Some ipg ∧
         snd (handleCallback E cb w) =
           notify_if_success (callback_update E cb v txref ipg d)
             (with_donations w
                (<[i := callback_update E cb v txref ipg d]> (donations w)))).
Proof.
  destruct (verifyCallback cb) as [v|e] eqn:Hv.
  2:{ left. by rewrite (handleCallback_invalid E cb w e Hv). }
  destruct (fst (findOne_by_order E (v_orderId v) w)) as [[[i d]|]|ex] eqn:Hf.
  - destruct (decide (paymentStatus d = PENDING)) as [Hp|Hp].
    + destruct (amount_mismatch v d) eqn:Hm.
      { right. exists i, d, v. split; [done|]. split; [done|]. split; [done|].
        left. split; [done|].
        by rewrite (handleCallback_mismatch E cb w v i d Hv Hf Hp Hm). }
      destruct (castString E (v_transactionRef v)) as [txref|] eqn:Ht.
      2:{ left. rewrite (handleCallback_cast_fails E cb w v i d); auto. }
      destruct (castString E (v_ipgId v)) as [ipg|] eqn:Hg.
      2:{ left. rewrite (handleCallback_cast_fails E cb w v i d); auto. }
      right. exists i, d, v. split; [done|]. split; [done|]. split; [done|].
      right. exists txref, ipg. split; [done|]. split; [done|]. split; [done|].
      by rewrite (handleCallback_update E cb w v i d txref ipg Hv Hf Hp Hm Ht Hg).
    + left. by rewrite (handleCallback_settled E cb w v i d Hv Hf Hp).
  - left. by rewrite (handleCallback_not_found E cb w v Hv Hf).
  - left. by rewrite (handleCallback_lookup_throws E cb w v ex Hv Hf).
Qed.

(** The three ways verifyTransaction ends once the processor was asked. *)
Lemma verifyTransaction_world E ref w :
  snd (verifyTransaction E ref w) = w ∨
  ∃ i d t,
    list_find (λ x, donationRef x = ref) (donations w) = Some (i, d) ∧
    mswipeTransId d = Some t ∧ str_nonempty t = true ∧
    (snd (verifyTransaction E ref w) =
       with_request w (GetPBLTransactionDetails t)
     ∨ ∃ data txref ipg,
         checkTransactionStatus E t w =
           (Ok (StatusOk data), with_request w (GetPBLTransactionDetails t)) ∧
         paymentStatus d = PENDING ∧ sd_status data ≠ PENDING ∧
         castString E (js_or (sd_paymentId data) (sd_ipgId data)) = Some txref ∧
         castString E (sd_ipgId data) = Some ipg ∧
         snd (verifyTransaction E ref w) =
           notify_if_success (verify_update E data txref ipg d)
             (with_donations (with_request w (GetPBLTransactionDetails t))
                (<[i := verify_update E data txref ipg d]> (donations w)))).
Proof.
  unfold verifyTransaction, findOne_by_ref. unfold_monad.
  destruct (negb (str_nonempty ref)); [by left|].
  destruct (list_find _ (donations w)) as [[i d]|] eqn:Hf; [|by left].
  destruct (mswipeTransId d) as [[|c r]|] eqn:Ht; [by left| |by left].
  right. exists i, d, (String c r). split; [done|]. split; [done|].
  split; [done|].
  destruct (checkTransactionStatus_world E (String c r) w eq_refl)
    as (res & Hrun).
  rewrite Hrun.
  destruct res as [data|]; [|by left].
  destruct (decide (paymentStatus d = PENDING ∧ sd_status data ≠ PENDING))
    as [[Hp Hs]|Hn]; [|by left].
  destruct (castString E (js_or _ _)) as [txref|] eqn:Hc; [|by left].
  destruct (castString E (sd_ipgId data)) as [ipg|] eqn:Hi; [|by left].
  right. exists data, txref, ipg.
  split; [done|]. split; [done|]. split; [done|]. split; [done|].
  split; [done|].
  unfold save, notify_if_success. fold (verify_update E data txref ipg d).
  simpl. destruct (decide (sd_status data = SUCCESS)); reflexivity.
Qed.

(** initiatePayment either leaves the world as it is, or was accepted and
    appended one document to what createOrder left. *)
Lemma initiatePayment_world E b w :
  snd (initiatePayment E b w) = w ∨
  (accepted E b w ∧
   ∃ d,
     snd (initiatePayment E b w) =
       with_donations (snd (createOrder E (order_of E b) w))
         (donations w ++ [d]) ∧
     donationRef d = fresh_donationRef E ∧
     mswipeOrderId d = Some (fresh_orderId E) ∧
     amount d = ToNumber (b_amount b) ∧
     mswipeTransactionRef d = None ∧
     ((paymentStatus d = FAILED ∧ status d = failed ∧
       fst (createOrder E (order_of E b) w) = Ok OrderFailed)
      ∨ (paymentStatus d = PENDING ∧ status d = pending ∧
         ∃ data, fst (createOrder E (order_of E b) w) = Ok (OrderCreated data)))).
Proof.
  unfold initiatePayment, save_new. unfold_monad.
  destruct (isConfigured E) eqn:Hc; [|by left]. simpl.
  destruct (basic_validation E b) as [[|e errs]|] eqn:Hb; [|by left|by left].
  destruct (schema_valid E b _) eqn:Hs; [|by left]. simpl.
  destruct (list_find _ (donations w)) eqn:Hu; [by left|].
  right. split; [done|].
  fold (pending_donation E b). fold (order_of E b).
  rewrite createOrder_frame.
  destruct (createOrder_run E (order_of E b) w) as (r & w1 & Hrun & Hd & _).
  rewrite Hrun. simpl. destruct r as [data|].
  - destruct (castString E (oi_txnId data)) as [ipg|].
    + eexists. unfold save. simpl.
      rewrite insert_app_r_alt by lia. rewrite Nat.sub_diag. simpl.
      split; [reflexivity|]. do 4 (split; [done|]).
      right. split; [done|]. split; [done|]. by eexists.
    + eexists. simpl.
      split; [reflexivity|]. do 4 (split; [done|]).
      right. split; [done|]. split; [done|]. by eexists.
  - eexists. unfold save. simpl.
    rewrite insert_app_r_alt by lia. rewrite Nat.sub_diag. simpl.
    split; [reflexivity|]. do 4 (split; [done|]).
    left. done.
Qed.

(** ** The service *)

Lemma order_complete_guard o :
  order_complete o →
  falsy (od_name o) || falsy (od_email o) || falsy (od_mobile o)
    || negb (num_truthy (od_amount o)) || negb (str_nonempty (od_orderId o))
  = false.
Proof. unfold falsy. by intros (-> & -> & -> & -> & ->). Qed.

Lemma generateToken_hit E w :
  cache_fresh E w = true →
  generateToken E w = (Ok (TokenOk (cachedToken w)), w).
Proof. intros Hh. unfold generateToken. unfold_monad. by rewrite Hh. Qed.

Lemma generateToken_refused E w :
  cache_fresh E w = false → token_refused E →
  generateToken E w = (Ok TokenFailed, with_request w CreatePBLAuthToken).
Proof.
  intros Hm Hr. unfold generateToken, axios_post. unfold_monad. rewrite Hm.
  destruct (reply_token E) as [|data] eqn:Ht; [done|].
  by rewrite (Hr data Ht).
Qed.

Lemma generateToken_granted E w data :
  cache_fresh E w = false →
  reply_token E = Resolved data →
  is_str (tk_status data) "true" || is_true (tk_status data) = true →
  generateToken E w =
    (Ok (TokenOk (tk_token data)),
     with_token (with_request w CreatePBLAuthToken) (tk_token data)
       (Some (parsed_expiry E (tk_token data)))).
Proof.
  intros Hm Hr Hs. unfold generateToken, axios_post. unfold_monad.
  by rewrite Hm, Hr, Hs.
Qed.

(** X1. generateToken, createOrder and checkTransactionStatus never throw:
    whatever the processor does, they resolve to a result object, and they
    leave the donations and the outbox alone; checkTransactionStatus does
    not touch the token cache either. *)
Theorem service_calls_are_contained (E : Env) (o : OrderData) (t : string)
  (w : World) :
  (∃ r w', generateToken E w = (Ok r, w') ∧
           donations w' = donations w ∧ outbox w' = outbox w) ∧
  (∃ r w', createOrder E o w = (Ok r, w') ∧
           donations w' = donations w ∧ outbox w' = outbox w) ∧
  (∃ r w', checkTransactionStatus E t w = (Ok r, w') ∧
           donations w' = donations w ∧ outbox w' = outbox w ∧
           cachedToken w' = cachedToken w ∧ tokenExpiry w' = tokenExpiry w).
Proof.
  split; [|split].
  - unfold generateToken, axios_post. unfold_monad.
    destruct (cache_fresh E w); [by eexists _, _|].
    destruct (reply_token E) as [|data]; [by eexists _, _|].
    destruct (is_str _ _ || is_true _); by eexists _, _.
  - apply createOrder_run.
  - apply checkTransactionStatus_run.
Qed.

(** X2. An order that lacks a name, an email, a mobile number, an amount
    or an order id is refused before anything is sent: no token request,
    no payment request, the world is unchanged. *)
Theorem incomplete_order_contacts_nobody (E : Env) (o : OrderData) (w : World) :
  falsy (od_name o) = true ∨ falsy (od_email o) = true ∨
  falsy (od_mobile o) = true ∨ num_truthy (od_amount o) = false ∨
  str_nonempty (od_orderId o) = false →
  createOrder E o w = (Ok OrderFailed, w).
Proof.
  intros H. unfold createOrder. unfold_monad.
  assert (falsy (od_name o) || falsy (od_email o) || falsy (od_mobile o)
          || negb (num_truthy (od_amount o))
          || negb (str_nonempty (od_orderId o)) = true) as ->; [|done].
  destruct H as [-> | [-> | [-> | [-> | ->]]]]; simpl;
    rewrite ?orb_true_r; done.
Qed.

Lemma incomplete_order_contacts_nobody_witness :
  createOrder online_env order_without_email cached_world
    = (Ok OrderFailed, cached_world).
Proof.
  apply (incomplete_order_contacts_nobody online_env order_without_email
           cached_world).
  right. left. reflexivity.
Defined.

(** X3. When no fresh token is cached and the processor refuses one,
    createOrder fails after the token request alone: the payment-link
    endpoint is never called and the cache keeps what it had. *)
Theorem order_without_token_stops (E : Env) (o : OrderData) (w : World) :
  order_complete o →
  cache_fresh E w = false →
  token_refused E →
  ∃ w',
    createOrder E o w = (Ok OrderFailed, w') ∧
    requests w' = requests w ++ [CreatePBLAuthToken] ∧
    cachedToken w' = cachedToken w ∧ tokenExpiry w' = tokenExpiry w.
Proof.
  intros Ho Hm Hr. unfold createOrder. unfold_monad.
  rewrite (order_complete_guard o Ho), (generateToken_refused E w Hm Hr).
  by eexists.
Qed.

Lemma order_without_token_stops_witness :
  ∃ w',
    createOrder offline_env sample_order initial_world = (Ok OrderFailed, w') ∧
    requests w' = requests initial_world ++ [CreatePBLAuthToken] ∧
    cachedToken w' = cachedToken initial_world ∧
    tokenExpiry w' = tokenExpiry initial_world.
Proof.
  apply (order_without_token_stops offline_env sample_order initial_world).
  - repeat split; reflexivity.
  - reflexivity.
  - intros data Hr. discriminate Hr.
Defined.

(** X4. createOrder reports success only for a reply of the payment-link
    call that has a true status flag and a link; the result then carries
    that link, the processor's transaction id and the TransID read from
    the link, and the last request made is the payment-link call for this
    order, amount and token. *)
Theorem created_order_has_link (E : Env) (o : OrderData) (w w' : World)
  (data : OrderInfo) :
  createOrder E o w = (Ok (OrderCreated data), w') →
  ∃ reply token,
    reply_payment E = Resolved reply ∧ link_granted reply ∧
    data = order_info E reply ∧
    fst (generateToken E w) = Ok (TokenOk token) ∧
    requests w' =
      requests (snd (generateToken E w)) ++
        [MswipePayment (od_orderId o) (od_amount o) token].
Proof.
  unfold createOrder. unfold_monad.
  destruct (falsy _ || falsy _ || falsy _ || negb _ || negb _); [done|].
  destruct (generateToken E w) as [[[token|]|ex] w1]; simpl; try done.
  unfold axios_post.
  destruct (reply_payment E) as [|reply]; [done|].
  destruct (is_str _ _ || is_true _ || is_str _ _) eqn:Hs; [|done].
  destruct (falsy (pl_smslink reply)) eqn:Hl; [done|].
  intros [= <- <-]. exists reply, token.
  split; [done|]. split.
  { split; [done|]. unfold falsy in Hl. by apply negb_false_iff in Hl. }
  done.
Qed.

Lemma created_order_has_link_witness :
  ∃ reply token,
    reply_payment online_env = Resolved reply ∧ link_granted reply ∧
    order_info online_env sample_link = order_info online_env reply ∧
    fst (generateToken online_env initial_world) = Ok (TokenOk token) ∧
    requests
      (with_request
         (with_token (with_request initial_world CreatePBLAuthToken)
            granted_token
            (Some (parsed_expiry online_env granted_token)))
         (MswipePayment "ORD1" (num_of_Z 100) granted_token)) =
      requests (snd (generateToken online_env initial_world)) ++
        [MswipePayment (od_orderId sample_order) (od_amount sample_order)
           token].
Proof.
  apply (created_order_has_link online_env sample_order initial_world).
  reflexivity.
Defined.

(** X5. With a fresh token in the cache and a reply that grants a link,
    createOrder makes exactly one request, the payment-link call carrying
    the cached token, and succeeds. *)
Theorem order_with_cached_token (E : Env) (o : OrderData) (w : World)
  (reply : PaymentReply) :
  order_complete o →
  cache_fresh E w = true →
  reply_payment E = Resolved reply →
  link_granted reply →
  createOrder E o w =
    (Ok (OrderCreated (order_info E reply)),
     with_request w
       (MswipePayment (od_orderId o) (od_amount o) (cachedToken w))).
Proof.
  intros Ho Hh Hr [Hs Hl]. unfold createOrder. unfold_monad.
  rewrite (order_complete_guard o Ho), (generateToken_hit E w Hh).
  unfold axios_post. rewrite Hr, Hs. unfold falsy. by rewrite Hl.
Qed.

Lemma order_with_cached_token_witness :
  createOrder online_env sample_order cached_world =
    (Ok (OrderCreated (order_info online_env sample_link)),
     with_request cached_world
       (MswipePayment "ORD1" (num_of_Z 100) (VStr "cached-token"))).
Proof.
  apply (order_with_cached_token online_env sample_order cached_world
           sample_link).
  - repeat split; reflexivity.
  - reflexivity.
  - reflexivity.
  - split; reflexivity.
Defined.

(** X6. A token request that the processor refuses leaves the cache as it
    was and reports failure. *)
Theorem failed_token_request_keeps_cache (E : Env) (w : World) :
  cache_fresh E w = false →
  token_refused E →
  ∃ w',
    generateToken E w = (Ok TokenFailed, w') ∧
    requests w' = requests w ++ [CreatePBLAuthToken] ∧
    cachedToken w' = cachedToken w ∧ tokenExpiry w' = tokenExpiry w ∧
    donations w' = donations w.
Proof.
  intros Hm Hr. rewrite (generateToken_refused E w Hm Hr). by eexists.
Qed.

Lemma failed_token_request_keeps_cache_witness :
  ∃ w',
    generateToken offline_env expiring_world = (Ok TokenFailed, w') ∧
    requests w' = requests expiring_world ++ [CreatePBLAuthToken] ∧
    cachedToken w' = cachedToken expiring_world ∧
    tokenExpiry w' = tokenExpiry expiring_world ∧
    donations w' = donations expiring_world.
Proof.
  apply (failed_token_request_keeps_cache offline_env expiring_world).
  - reflexivity.
  - intros data Hr. discriminate Hr.
Defined.

(** X7. Once the processor has granted a token whose stored expiry is more
    than one hour ahead, asking again at the same time returns that token
    from the cache without another request. *)
Theorem granted_token_is_cached (E : Env) (w : World) (data : TokenReply) :
  cache_fresh E w = false →
  reply_token E = Resolved data →
  is_str (tk_status data) "true" || is_true (tk_status data) = true →
  truthy (tk_token data) = true →
  (0 ≤ now E)%Z →
  num_gtb (parsed_expiry E (tk_token data)) (num_of_Z (now E + bufferTime))
    = true →
  ∃ w1,
    generateToken E w = (Ok (TokenOk (tk_token data)), w1) ∧
    requests w1 = requests w ++ [CreatePBLAuthToken] ∧
    generateToken E w1 = (Ok (TokenOk (tk_token data)), w1).
Proof.
  intros Hm Hr Hs Ht Hnow Hg.
  rewrite (generateToken_granted E w data Hm Hr Hs).
  eexists. split; [reflexivity|]. split; [reflexivity|].
  apply generateToken_hit. unfold cache_fresh.
  change (cachedToken (with_token _ (tk_token data) _)) with (tk_token data).
  change (tokenExpiry (with_token _ _ (Some (parsed_expiry E (tk_token data)))))
    with (Some (parsed_expiry E (tk_token data))).
  rewrite Ht, Hg, andb_true_r. simpl.
  apply num_gtb_nonneg_truthy with (k := (now E + bufferTime)%Z);
    [unfold bufferTime; lia|done].
Qed.

Lemma granted_token_is_cached_witness :
  ∃ w1,
    generateToken online_env initial_world = (Ok (TokenOk granted_token), w1) ∧
    requests w1 = requests initial_world ++ [CreatePBLAuthToken] ∧
    generateToken online_env w1 = (Ok (TokenOk granted_token), w1).
Proof.
  apply (granted_token_is_cached online_env initial_world
           {| tk_status := VStr "true"; tk_token := granted_token;
              tk_msg := VUndef |});
    try reflexivity.
  simpl. lia.
Defined.

(** X8. refreshToken always asks the processor, whatever the cache holds.
    If the processor refuses, the cache is left empty, so a token that was
    still valid is lost; if it grants a token, the cache holds the new
    one. *)
Theorem refreshToken_always_asks (E : Env) (w : World) :
  requests (snd (refreshToken E w)) = requests w ++ [CreatePBLAuthToken] ∧
  (token_refused E →
   refreshToken E w =
     (Ok TokenFailed,
      with_request (with_token w VNull None) CreatePBLAuthToken)) ∧
  (∀ data,
      reply_token E = Resolved data →
      is_str (tk_status data) "true" || is_true (tk_status data) = true →
      refreshToken E w =
        (Ok (TokenOk (tk_token data)),
         with_token (with_request w CreatePBLAuthToken) (tk_token data)
           (Some (parsed_expiry E (tk_token data))))).
Proof.
  assert (∀ w0 : World, cache_fresh E (with_token w0 VNull None) = false)
    as Hm by done.
  unfold refreshToken. unfold_monad. split; [|split].
  - pose proof (generateToken_miss E (with_token w VNull None) (Hm w)) as H.
    exact H.
  - intros Hr. by rewrite (generateToken_refused E _ (Hm w) Hr).
  - intros data Hr Hs. by rewrite (generateToken_granted E _ data (Hm w) Hr Hs).
Qed.

Lemma refreshToken_always_asks_witness :
  requests (snd (refreshToken offline_env cached_world))
    = requests cached_world ++ [CreatePBLAuthToken] ∧
  refreshToken offline_env cached_world =
    (Ok TokenFailed,
     with_request (with_token cached_world VNull None) CreatePBLAuthToken) ∧
  refreshToken online_env cached_world =
    (Ok (TokenOk granted_token),
     with_token (with_request cached_world CreatePBLAuthToken) granted_token
       (Some (parsed_expiry online_env granted_token))).
Proof.
  destruct (refreshToken_always_asks offline_env cached_world)
    as (Hreq & Hrefused & _).
  destruct (refreshToken_always_asks online_env cached_world)
    as (_ & _ & Hgranted).
  split; [exact Hreq|]. split.
  - apply Hrefused. intros data Hr. discriminate Hr.
  - apply (Hgranted _ eq_refl eq_refl).
Defined.

(** X9. Whenever generateToken would answer from the cache, the service
    report says the token is valid; the report also says so during the
    last hour before expiry, when generateToken already asks for a new
    token. *)
Theorem report_and_cache_guard (E : Env) (mswipe_env : JsVal) (w : World) :
  (0 ≤ now E)%Z →
  (cache_fresh E w = true →
   info_hasValidToken (getEnvironmentInfo E mswipe_env w) = true) ∧
  (∀ e, truthy (cachedToken w) = true →
        tokenExpiry w = Some e →
        num_gtb e (num_of_Z (now E)) = true →
        num_gtb e (num_of_Z (now E + bufferTime)) = false →
        info_hasValidToken (getEnvironmentInfo E mswipe_env w) = true ∧
        requests (snd (generateToken E w))
          = requests w ++ [CreatePBLAuthToken]).
Proof.
  intros Hnow. split.
  - unfold cache_fresh. simpl.
    destruct (truthy (cachedToken w)); [|done]. simpl.
    destruct (tokenExpiry w) as [e|]; [|done].
    intros [Ht Hg]%andb_true_iff. rewrite Ht. simpl.
    destruct e as [| | |q]; try done. simpl in *.
    apply negb_true_iff in Hg. apply negb_true_iff.
    apply not_true_is_false. intros Hle%Qle_bool_iff.
    assert (Qle_bool q (inject_Z (now E + bufferTime)) = true); [|congruence].
    apply Qle_bool_iff. eapply Qle_trans; [exact Hle|].
    rewrite <- Zle_Qle. unfold bufferTime. lia.
  - intros e Ht He Hg Hb. split.
    + unfold getEnvironmentInfo, info_hasValidToken.
      rewrite Ht, He, Hg, andb_true_r. simpl.
      by apply num_gtb_nonneg_truthy with (k := now E).
    + apply generateToken_miss. unfold cache_fresh.
      rewrite Ht, He, Hb. simpl. by rewrite andb_false_r.
Qed.

Lemma report_and_cache_guard_witness :
  info_hasValidToken (getEnvironmentInfo online_env (VStr "production")
                        cached_world) = true ∧
  info_hasValidToken (getEnvironmentInfo online_env (VStr "production")
                        expiring_world) = true ∧
  requests (snd (generateToken online_env expiring_world))
    = requests expiring_world ++ [CreatePBLAuthToken].
Proof.
  assert (0 ≤ now online_env)%Z as Hnow by (simpl; lia).
  destruct (report_and_cache_guard online_env (VStr "production") cached_world
              Hnow) as [Hfresh _].
  destruct (report_and_cache_guard online_env (VStr "production")
              expiring_world Hnow) as [_ Hlast].
  split; [apply Hfresh; reflexivity|].
  apply (Hlast _ eq_refl eq_refl); reflexivity.
Defined.

(** ** One request, in three cases *)

Lemma legacy_of_consistent d st :
  legacy_consistent (set_status d st (legacy_of st)).
Proof. unfold legacy_consistent. destruct st; simpl; split_and!; done. Qed.

(** A request leaves the donations and the outbox alone, or appends one
    new donation, or rewrites one PENDING donation and notifies exactly
    when it has become SUCCESS. *)
Lemma step_cases E c w :
  (donations (step E c w) = donations w ∧ outbox (step E c w) = outbox w)
  ∨ (∃ b d,
        c = Initiate b ∧
        donations (step E c w) = donations w ++ [d] ∧
        outbox (step E c w) = outbox w ∧
        Forall (λ x, donationRef x ≠ donationRef d) (donations w) ∧
        mswipeTransactionRef d = None ∧ legacy_consistent d ∧
        paymentStatus d ≠ SUCCESS)
  ∨ (∃ i d d',
        (∀ b, c ≠ Initiate b) ∧
        donations w !! i = Some d ∧ paymentStatus d = PENDING ∧
        donations (step E c w) = <[i := d']> (donations w) ∧
        same_identity d d' ∧ legacy_consistent d' ∧
        ((paymentStatus d' ≠ SUCCESS ∧ outbox (step E c w) = outbox w)
         ∨ (paymentStatus d' = SUCCESS ∧
            outbox (step E c w) = outbox w ++ [mail_of d']))).
Proof.
  unfold step. destruct c as [b|cb|ref]; simpl.
  - destruct (initiatePayment_world E b w)
      as [-> | ((_ & _ & _ & Hu) & d & -> & Hr & _ & _ & Ht & Hst)];
      [by left|].
    right. left. exists b, d.
    destruct (createOrder_run E (order_of E b) w) as (r & w1 & Hrun & _ & Ho).
    rewrite Hrun. simpl. split; [done|]. split; [done|]. split; [done|].
    split. { rewrite Hr. by apply list_find_None in Hu. }
    split; [done|].
    destruct Hst as [(Hp & Hl & _) | (Hp & Hl & _)];
      (split; [|congruence]);
      unfold legacy_consistent; rewrite Hp, Hl; split_and!; done.
  - destruct (handleCallback_world E cb w)
      as [-> | (i & d & v & Hv & Hf & Hp & Hw)]; [by left|].
    apply findOne_by_order_lookup in Hf.
    right. right. exists i, d.
    destruct Hw as [[_ ->] | (txref & ipg & _ & _ & _ & ->)].
    + eexists. split; [done|]. split; [done|]. split; [done|].
      split; [reflexivity|]. split; [done|].
      split; [apply (legacy_of_consistent d FAILED)|]. left. done.
    + exists (callback_update E cb v txref ipg d).
      split; [done|]. split; [done|]. split; [done|].
      unfold notify_if_success, sendDonationEmail.
      destruct (decide (paymentStatus _ = SUCCESS)) as [Hs|Hs]; simpl;
        (split; [done|]); (split; [done|]);
        (split; [apply legacy_of_consistent|]); [right|left]; done.
  - destruct (verifyTransaction_world E ref w)
      as [-> | (i & d & t & Hf & Ht & Hn & Hw)]; [by left|].
    apply list_find_Some in Hf as [Hi _].
    destruct Hw as [-> | (data & txref & ipg & _ & Hp & Hs & _ & _ & ->)];
      [by left|].
    right. right. exists i, d, (verify_update E data txref ipg d).
    split; [done|]. split; [done|]. split; [done|].
    unfold notify_if_success, sendDonationEmail.
    destruct (decide (paymentStatus _ = SUCCESS)) as [Hs'|Hs']; simpl;
      (split; [done|]); (split; [done|]);
      (split; [apply legacy_of_consistent|]); [right|left]; done.
Qed.

(** ** Invariants of sequences of requests *)

Lemma same_identity_refl d : same_identity d d.
Proof. by repeat split. Qed.

Lemma same_identity_trans d1 d2 d3 :
  same_identity d1 d2 → same_identity d2 d3 → same_identity d1 d3.
Proof.
  unfold same_identity. intros (?&?&?&?&?&?) (?&?&?&?&?&?).
  split_and!; congruence.
Qed.

Lemma step_identity E c w i d :
  donations w !! i = Some d →
  ∃ d', donations (step E c w) !! i = Some d' ∧ same_identity d d'.
Proof.
  intros Hi.
  destruct (step_cases E c w)
    as [[-> _] | [(b & x & _ & -> & _) | (j & dj & d' & _ & Hj & _ & -> & Hs & _)]].
  - exists d. split; [done|apply same_identity_refl].
  - exists d. split; [by apply lookup_app_l_Some|apply same_identity_refl].
  - destruct (decide (j = i)) as [->|Hne].
    + exists d'. split.
      * apply list_lookup_insert_eq. by eapply lookup_lt_Some.
      * congruence.
    + exists d. split; [by rewrite list_lookup_insert_ne|].
      apply same_identity_refl.
Qed.

(** X10. Whatever requests follow, a stored donation keeps its position,
    its donationRef, its amount, its order id, its polling id and its
    donor's name and email. *)
Theorem identity_is_immutable (calls : list (Env * Call)) (w : World)
  (i : nat) (d : Donation) :
  donations w !! i = Some d →
  ∃ d', donations (run calls w) !! i = Some d' ∧ same_identity d d'.
Proof.
  revert w d. induction calls as [|[E c] rest IH]; intros w d Hi; simpl.
  - exists d. split; [done|apply same_identity_refl].
  - destruct (step_identity E c w i d Hi) as (d1 & H1 & S1).
    destruct (IH _ _ H1) as (d2 & H2 & S2).
    exists d2. split; [done|by eapply same_identity_trans].
Qed.

Lemma identity_is_immutable_witness :
  ∃ d',
    donations (run [(offline_env, Callback (approved_callback "100"));
                    (status_env (VNum (num_of_Z 1)), Verify "CMV1")]
                 (sample_world open_donation)) !! 0 = Some d' ∧
    same_identity open_donation d'.
Proof.
  apply (identity_is_immutable _ (sample_world open_donation) 0 open_donation).
  reflexivity.
Defined.

Lemma step_length E c w :
  List.length (donations (step E c w)) = List.length (donations w)
  ∨ ((∃ b, c = Initiate b) ∧
     List.length (donations (step E c w)) = S (List.length (donations w))).
Proof.
  destruct (step_cases E c w)
    as [[-> _] | [(b & x & -> & -> & _) | (j & dj & d' & _ & _ & _ & -> & _)]].
  - by left.
  - right. split; [by eexists|]. rewrite length_app. simpl. lia.
  - left. apply length_insert.
Qed.

(** X11. No request deletes a donation: a request leaves the number of
    donations as it is, except an initiation, which may add one; so a
    sequence of requests never shrinks the collection and adds at most one
    donation per request. *)
Theorem collection_only_grows (calls : list (Env * Call)) (w : World) :
  (List.length (donations w) ≤ List.length (donations (run calls w)))%nat ∧
  (List.length (donations (run calls w))
     ≤ List.length (donations w) + List.length calls)%nat ∧
  (∀ E c,
      List.length (donations (step E c w)) ≠ List.length (donations w) →
      (∃ b, c = Initiate b) ∧
      List.length (donations (step E c w)) = S (List.length (donations w))).
Proof.
  split_and!.
  - revert w. induction calls as [|[E c] rest IH]; intros w; simpl; [lia|].
    specialize (IH (step E c w)).
    destruct (step_length E c w) as [H | [_ H]]; lia.
  - revert w. induction calls as [|[E c] rest IH]; intros w; simpl; [lia|].
    specialize (IH (step E c w)).
    destruct (step_length E c w) as [H | [_ H]]; lia.
  - intros E c Hne. by destruct (step_length E c w) as [H | H].
Qed.

Lemma collection_only_grows_witness :
  (∃ b, Initiate sample_body = Initiate b) ∧
  List.length (donations (step offline_env (Initiate sample_body)
                            initial_world))
    = S (List.length (donations initial_world)).
Proof.
  destruct (collection_only_grows [] initial_world) as (_ & _ & Hstep).
  apply (Hstep offline_env (Initiate sample_body)). vm_compute. discriminate.
Defined.

Lemma step_refs_unique E c w : refs_unique w → refs_unique (step E c w).
Proof.
  unfold refs_unique. intros Hu.
  destruct (step_cases E c w)
    as [[-> _] | [(b & x & _ & -> & _ & Hf & _)
                 | (j & dj & d' & _ & Hj & _ & -> & (Hr & _) & _)]].
  - done.
  - rewrite fmap_app. apply NoDup_app. split; [done|]. split.
    + intros r Hr Hx. apply list_elem_of_fmap in Hr as (y & -> & Hy).
      apply list_elem_of_singleton in Hx.
      rewrite Forall_forall in Hf. by apply (Hf y).
    + apply NoDup_singleton.
  - rewrite list_fmap_insert, Hr.
    rewrite list_insert_id; [done|].
    by rewrite list_lookup_fmap, Hj.
Qed.

(** X12. If no two donations share a donationRef, none do after any
    sequence of requests: initiation refuses a reference that is taken, and
    no handler rewrites one. *)
Theorem references_stay_unique (calls : list (Env * Call)) (w : World) :
  refs_unique w → refs_unique (run calls w).
Proof.
  revert w. induction calls as [|[E c] rest IH]; intros w Hu; simpl; [done|].
  by apply IH, step_refs_unique.
Qed.

Lemma references_stay_unique_witness :
  refs_unique (run [(offline_env, Initiate sample_body);
                    (offline_env, Initiate sample_body)]
                 (sample_world open_donation)).
Proof.
  apply references_stay_unique. unfold refs_unique. simpl.
  apply NoDup_singleton.
Defined.

Lemma step_legacy E c w :
  Forall legacy_consistent (donations w) →
  Forall legacy_consistent (donations (step E c w)).
Proof.
  intros Hl.
  destruct (step_cases E c w)
    as [[-> _] | [(b & x & _ & -> & _ & _ & _ & Hx & _)
                 | (j & dj & d' & _ & _ & _ & -> & _ & Hd' & _)]].
  - done.
  - apply Forall_app. split; [done|]. by apply Forall_singleton.
  - by apply Forall_insert.
Qed.

(** X13. The legacy [status] field follows [paymentStatus] through every
    sequence of requests: it is 'completed' exactly for SUCCESS, it is
    'failed' for FAILED, and 'pending' only occurs with PENDING. *)
Theorem legacy_status_follows (calls : list (Env * Call)) (w : World) :
  Forall legacy_consistent (donations w) →
  Forall legacy_consistent (donations (run calls w)).
Proof.
  revert w. induction calls as [|[E c] rest IH]; intros w Hl; simpl; [done|].
  by apply IH, step_legacy.
Qed.

Lemma legacy_status_follows_witness :
  Forall legacy_consistent
    (donations (run [(offline_env, Callback pending_callback);
                     (offline_env, Callback (approved_callback "50"))]
                  (sample_world open_donation))).
Proof.
  apply legacy_status_follows. simpl. apply Forall_singleton.
  unfold legacy_consistent. simpl. split_and!; done.
Defined.





(** ** initiatePayment, the remaining paths *)

(** X16. An initiation that is turned away leaves no trace: when the
    service is not configured (503), when the basic validation reports
    errors (400 with the list) or throws (500), and when the schema rejects
    the document (500), nothing is stored and the processor is not
    contacted. *)
Theorem refused_initiation_leaves_no_trace (E : Env) (b : InitiateBody)
  (w : World) :
  (isConfigured E = false →
   initiatePayment E b w =
     (Ok (Json 503 (ErrorBody "Payment service temporarily unavailable")), w)) ∧
  (isConfigured E = true →
   (∀ e errs,
       basic_validation E b = Some (e :: errs) →
       initiatePayment E b w = (Ok (Json 400 (ErrorsBody (e :: errs))), w)) ∧
   (basic_validation E b = None →
    initiatePayment E b w = (Ok internal_error, w)) ∧
   (basic_validation E b = Some [] →
    schema_valid E b (new_donation E b (fresh_donationRef E) (fresh_orderId E))
      = false →
    initiatePayment E b w = (Ok internal_error, w))).
Proof.
  unfold initiatePayment, save_new. unfold_monad. split.
  - by intros ->.
  - intros ->. simpl. split_and!.
    + by intros e errs ->.
    + by intros ->.
    + by intros -> ->.
Qed.

Lemma refused_initiation_leaves_no_trace_witness :
  initiatePayment offline_env (sample_body_with (VNum (num_of_Z 0)))
    (sample_world open_donation) =
    (Ok (Json 400 (ErrorsBody ["Amount must be greater than 0"])),
     sample_world open_donation) ∧
  initiatePayment offline_env
    {| b_fullName := VNum (num_of_Z 7); b_email := VStr "asha@example.org";
       b_phoneNumber := VStr "9876543210"; b_amount := VNum (num_of_Z 100);
       b_purpose := VUndef; b_reasonForDonation := VUndef;
       b_rest_valid := true |}
    (sample_world open_donation) =
    (Ok internal_error, sample_world open_donation).
Proof.
  split.
  - destruct (refused_initiation_leaves_no_trace offline_env
                (sample_body_with (VNum (num_of_Z 0)))
                (sample_world open_donation)) as [_ H].
    destruct (H eq_refl) as (Herr & _). apply Herr. reflexivity.
  - match goal with |- initiatePayment _ ?b _ = _ =>
      destruct (refused_initiation_leaves_no_trace offline_env b
                  (sample_world open_donation)) as [_ H]
    end.
    destruct (H eq_refl) as (_ & Hthrow & _). apply Hthrow. reflexivity.
Defined.

(** X17. When the generated donationRef is already taken, the initiation
    answers 409 and the collection is left as it is: the donation that
    holds the reference is not overwritten, and the processor is not
    contacted. *)
Theorem duplicate_reference_is_refused (E : Env) (b : InitiateBody)
  (w : World) (i : nat) (d : Donation) :
  isConfigured E = true →
  basic_validation E b = Some [] →
  schema_valid E b (new_donation E b (fresh_donationRef E) (fresh_orderId E))
    = true →
  donations w !! i = Some d →
  donationRef d = fresh_donationRef E →
  initiatePayment E b w =
    (Ok (Json 409 (ErrorBody "Duplicate order detected. Please try again.")),
     w).
Proof.
  intros Hc Hb Hs Hi Hr. unfold initiatePayment, save_new. unfold_monad.
  rewrite Hc, Hb, Hs. simpl.
  destruct (list_find _ (donations w)) as [p|] eqn:Hf; [done|].
  exfalso. apply list_find_None in Hf. rewrite Forall_lookup in Hf.
  by apply (Hf i d Hi).
Qed.

Lemma duplicate_reference_is_refused_witness :
  initiatePayment offline_env sample_body (sample_world clashing_donation) =
    (Ok (Json 409 (ErrorBody "Duplicate order detected. Please try again.")),
     sample_world clashing_donation).
Proof.
  apply (duplicate_reference_is_refused offline_env sample_body
           (sample_world clashing_donation) 0 clashing_donation);
    reflexivity.
Defined.

Lemma num_leb_nan_r n : num_leb n NaN = false.
Proof. by destruct n. Qed.

(** X18. An amount that is present but is not a number, or lies strictly
    between 0 and 1, passes the controller's own check (only [amount <= 0]
    is refused) and is then rejected by the schema when the document is
    saved: the caller gets 500 'Internal server error' instead of a 400,
    and nothing is stored. *)
Theorem unpayable_amount_is_a_server_error (E : Env) (b : InitiateBody)
  (w : World) :
  isConfigured E = true →
  fullName_missing (b_fullName b) = Some false →
  email_invalid E (b_email b) = Some false →
  phone_invalid E (b_phoneNumber b) = false →
  truthy (b_amount b) = true →
  ToNumber (b_amount b) = NaN
  ∨ (∃ q, ToNumber (b_amount b) = Fin q ∧ (0 < q)%Q ∧ (q < 1)%Q) →
  amount_invalid (b_amount b) = false ∧
  initiatePayment E b w = (Ok internal_error, w).
Proof.
  intros Hc Hn He Hp Ht Ha.
  assert (amount_invalid (b_amount b) = false) as Hai.
  { unfold amount_invalid, falsy. rewrite Ht. simpl.
    destruct Ha as [-> | (q & -> & Hq & _)]; [done|]. simpl.
    apply not_true_is_false. intros Hle%Qle_bool_iff.
    apply Qle_not_lt in Hle. by apply Hle. }
  split; [done|].
  assert (basic_validation E b = Some []) as Hb.
  { unfold basic_validation. by rewrite Hn, He, Hp, Hai. }
  unfold initiatePayment, save_new. unfold_monad. rewrite Hc, Hb. simpl.
  assert (schema_valid E b
            (new_donation E b (fresh_donationRef E) (fresh_orderId E)) = false)
    as ->; [|done].
  assert (num_leb (num_of_Z 1) (ToNumber (b_amount b)) = false) as Hmin.
  { destruct Ha as [-> | (q & -> & _ & Hq)]; [done|]. simpl.
    apply not_true_is_false. intros Hle%Qle_bool_iff.
    apply Qle_not_lt in Hle. by apply Hle. }
  unfold schema_valid.
  change (amount (new_donation E b _ _)) with (ToNumber (b_amount b)).
  by rewrite Hmin, andb_false_r.
Qed.

Lemma unpayable_amount_is_a_server_error_witness :
  (amount_invalid (VStr "abc") = false ∧
   initiatePayment offline_env (sample_body_with (VStr "abc")) initial_world
     = (Ok internal_error, initial_world)) ∧
  (amount_invalid (VStr "0.5") = false ∧
   initiatePayment offline_env (sample_body_with (VStr "0.5")) initial_world
     = (Ok internal_error, initial_world)).
Proof.
  split.
  - apply (unpayable_amount_is_a_server_error offline_env
             (sample_body_with (VStr "abc")) initial_world);
      try reflexivity.
    left. reflexivity.
  - apply (unpayable_amount_is_a_server_error offline_env
             (sample_body_with (VStr "0.5")) initial_world);
      try reflexivity.
    right. exists (5 # 10). split; [reflexivity|]. split; reflexivity.
Defined.

Lemma initiatePayment_accepted_run E b w :
  accepted E b w →
  ∃ r w1,
    createOrder E (order_of E b) w = (Ok r, w1) ∧
    initiatePayment E b w =
      match r with
      | OrderFailed =>
          (Ok (Json 500 (InitiateFailedBody "Failed to initiate payment"
                           (fresh_donationRef E))),
           with_donations w1
             (donations w ++
                [set_updatedAt (set_status (pending_donation E b) FAILED failed)
                   (now E)]))
      | OrderCreated data =>
          match castString E (oi_txnId data) with
          | None =>
              (Ok internal_error,
               with_donations w1 (donations w ++ [pending_donation E b]))
          | Some ipg =>
              (Ok (Json 200 (InitiatedBody (oi_paymentUrl data)
                               (fresh_donationRef E) (fresh_orderId E))),
               with_donations w1
                 (donations w ++
                    [set_updatedAt
                       (set_link (pending_donation E b) ipg (oi_transId data)
                          {| sr_link := Some (oi_mswipeResponse data);
                             sr_callback := None;
                             sr_statusCheck := None |})
                       (now E)]))
          end
      end.
Proof.
  intros (Hc & Hb & Hs & Hu).
  destruct (createOrder_run E (order_of E b) w) as (r & w1 & Hrun & _).
  exists r, w1. split; [done|].
  unfold initiatePayment, save_new. unfold_monad.
  rewrite Hc, Hb, Hs. simpl. rewrite Hu.
  fold (pending_donation E b). fold (order_of E b).
  rewrite createOrder_frame, Hrun. simpl.
  destruct r as [data|].
  - destruct (castString E (oi_txnId data)) as [ipg|]; [|done].
    unfold save. simpl.
    by rewrite insert_app_r_alt, Nat.sub_diag by lia.
  - unfold save. simpl.
    by rewrite insert_app_r_alt, Nat.sub_diag by lia.
Qed.

(** X19. When an accepted initiation obtains a payment link, the answer is
    200 with the link, the donationRef and the order id, and exactly one
    donation is added: PENDING, without a transaction reference, carrying
    the processor's transaction id and the polling id read from the
    link. *)
Theorem initiation_stores_the_link (E : Env) (b : InitiateBody) (w w1 : World)
  (data : OrderInfo) (ipg : option string) :
  accepted E b w →
  createOrder E (order_of E b) w = (Ok (OrderCreated data), w1) →
  castString E (oi_txnId data) = Some ipg →
  ∃ d,
    initiatePayment E b w =
      (Ok (Json 200 (InitiatedBody (oi_paymentUrl data)
                       (fresh_donationRef E) (fresh_orderId E))),
       with_donations w1 (donations w ++ [d])) ∧
    paymentStatus d = PENDING ∧ status d = pending ∧
    donationRef d = fresh_donationRef E ∧
    mswipeOrderId d = Some (fresh_orderId E) ∧
    amount d = ToNumber (b_amount b) ∧
    mswipeTransactionRef d = None ∧
    mswipeIpgId d = ipg ∧ mswipeTransId d = oi_transId data ∧
    sr_link (mswipePaymentResponse d) = Some (oi_mswipeResponse data).
Proof.
  intros Ha Ho Hc.
  destruct (initiatePayment_accepted_run E b w Ha) as (r & w1' & Hrun & ->).
  rewrite Ho in Hrun. injection Hrun as <- <-. rewrite Hc.
  eexists. split; [reflexivity|]. by repeat split.
Qed.

Lemma initiation_stores_the_link_witness :
  ∃ d,
    initiatePayment online_env sample_body initial_world =
      (Ok (Json 200 (InitiatedBody (pl_smslink sample_link)
                       (fresh_donationRef online_env)
                       (fresh_orderId online_env))),
       with_donations
         (snd (createOrder online_env (order_of online_env sample_body)
                 initial_world))
         (donations initial_world ++ [d])) ∧
    paymentStatus d = PENDING ∧ mswipeTransactionRef d = None ∧
    mswipeIpgId d = Some "IPG9".
Proof.
  destruct (initiation_stores_the_link online_env sample_body initial_world
              (snd (createOrder online_env (order_of online_env sample_body)
                      initial_world))
              (order_info online_env sample_link) (Some "IPG9"))
    as (d & Hrun & Hp & _ & _ & _ & _ & Ht & Hi & _).
  - repeat split; reflexivity.
  - reflexivity.
  - reflexivity.
  - exists d. split; [exact Hrun|]. by split.
Defined.



(** ** getDonationStatus *)

Lemma getDonationStatus_run ref w :
  getDonationStatus ref w =
    (Ok (if negb (str_nonempty ref)
         then StatusError 400 "Donation reference is required"
         else match list_find (λ x, donationRef x = ref) (donations w) with
              | None => StatusError 404 "Donation not found"
              | Some (_, d) =>
                  StatusReport (donationRef d) (paymentStatus d) (amount d)
                    (mswipeTransactionRef d) (mswipeIpgId d) (updatedAt d)
              end), w).
Proof.
  unfold getDonationStatus, findOne_by_ref. unfold_monad.
  destruct (negb (str_nonempty ref)); [done|].
  by destruct (list_find _ (donations w)) as [[i d]|].
Qed.

(** X21. getDonationStatus is a pure read: it never changes the world. For
    a reference that is not empty it answers 404 exactly when no donation
    has that reference, and otherwise reports the stored status, amount
    and processor references of the first donation that has it. *)
Theorem status_query_is_a_pure_read (ref : string) (w : World) :
  snd (getDonationStatus ref w) = w ∧
  (str_nonempty ref = true →
   (fst (getDonationStatus ref w) = Ok (StatusError 404 "Donation not found")
    ↔ ∀ d, d ∈ donations w → donationRef d ≠ ref) ∧
   (∀ i d,
       list_find (λ x, donationRef x = ref) (donations w) = Some (i, d) →
       fst (getDonationStatus ref w) =
         Ok (StatusReport ref (paymentStatus d) (amount d)
               (mswipeTransactionRef d) (mswipeIpgId d) (updatedAt d)))).
Proof.
  rewrite getDonationStatus_run. split; [done|].
  intros ->. simpl. split.
  - destruct (list_find _ (donations w)) as [[i d]|] eqn:Hf.
    + split; [done|]. intros Hall.
      apply list_find_Some in Hf as (Hi & Hr & _).
      exfalso. apply (Hall d); [|done]. by eapply list_elem_of_lookup_2.
    + split; [|done]. intros _. apply list_find_None in Hf.
      by rewrite Forall_forall in Hf.
  - intros i d Hf. rewrite Hf.
    apply list_find_Some in Hf as (_ & <- & _). done.
Qed.

Lemma status_query_is_a_pure_read_witness :
  fst (getDonationStatus "CMV1" (sample_world paid_donation)) =
    Ok (StatusReport "CMV1" SUCCESS (num_of_Z 100) (Some "RRN7") None
          1690000000000) ∧
  fst (getDonationStatus "CMV-unknown" (sample_world paid_donation)) =
    Ok (StatusError 404 "Donation not found").
Proof.
  destruct (status_query_is_a_pure_read "CMV1" (sample_world paid_donation))
    as [_ H1].
  destruct (status_query_is_a_pure_read "CMV-unknown"
              (sample_world paid_donation)) as [_ H2].
  split.
  - destruct (H1 eq_refl) as [_ Hfound].
    apply (Hfound 0 paid_donation). reflexivity.
  - destruct (H2 eq_refl) as [Hnone _]. apply Hnone.
    intros d Hd Hr. simpl in Hd. apply list_elem_of_singleton in Hd.
    subst d. discriminate Hr.
Defined.

(** X22. Right after an accepted initiation the status query for the new
    donationRef finds the new donation: it reports PENDING when a link was
    obtained and FAILED when link creation failed, with the amount of the
    request and no transaction reference. *)
Theorem initiation_then_status_query (E : Env) (b : InitiateBody) (w : World) :
  accepted E b w →
  ∃ st ipg t,
    fst (getDonationStatus (fresh_donationRef E)
           (snd (initiatePayment E b w))) =
      Ok (StatusReport (fresh_donationRef E) st (ToNumber (b_amount b))
            None ipg t) ∧
    (st = FAILED ↔ fst (createOrder E (order_of E b) w) = Ok OrderFailed) ∧
    (st = PENDING ↔
     ∃ data, fst (createOrder E (order_of E b) w) = Ok (OrderCreated data)).
Proof.
  intros Ha.
  assert (str_nonempty (fresh_donationRef E) = true) as Hne.
  { destruct Ha as (_ & _ & Hs & _). unfold schema_valid in Hs.
    simpl in Hs. by repeat (apply andb_true_iff in Hs as [Hs ?]). }
  destruct (initiatePayment_world E b w)
    as [Hw | (_ & d & Hw & Hr & _ & Hamt & Ht & Hst)].
  { exfalso.
    destruct (initiatePayment_accepted_run E b w Ha) as (r & w1 & _ & Hrun).
    rewrite Hrun in Hw.
    assert (List.length (donations w) = S (List.length (donations w)));
      [|lia].
    rewrite <- Hw at 1.
    destruct r as [data|]; [destruct (castString E _)|]; simpl;
      rewrite length_app; simpl; lia. }
  rewrite getDonationStatus_run, Hne, Hw. simpl.
  destruct Ha as (_ & _ & _ & Hu).
  assert (list_find (λ x, donationRef x = fresh_donationRef E)
            (donations w ++ [d]) = Some (List.length (donations w), d)) as ->.
  { apply list_find_Some. split.
    - by rewrite lookup_app_r, Nat.sub_diag by lia.
    - split; [done|]. intros j y Hj Hlt.
      rewrite lookup_app_l in Hj by done.
      apply list_find_None in Hu. rewrite Forall_lookup in Hu.
      by apply (Hu j y). }
  exists (paymentStatus d), (mswipeIpgId d), (updatedAt d).
  rewrite Hr, Hamt, Ht. split; [done|].
  destruct Hst as [(Hp & _ & Ho) | (Hp & _ & data & Ho)]; rewrite Hp, Ho.
  - split; [done|]. split; [done|]. by intros [data' ?].
  - split; [done|]. split; [by eexists|done].
Qed.

Lemma initiation_then_status_query_witness :
  ∃ st ipg t,
    fst (getDonationStatus (fresh_donationRef offline_env)
           (snd (initiatePayment offline_env sample_body initial_world))) =
      Ok (StatusReport (fresh_donationRef offline_env) st
            (ToNumber (b_amount sample_body)) None ipg t) ∧
    (st = FAILED ↔
     fst (createOrder offline_env (order_of offline_env sample_body)
            initial_world) = Ok OrderFailed) ∧
    (st = PENDING ↔
     ∃ data,
       fst (createOrder offline_env (order_of offline_env sample_body)
              initial_world) = Ok (OrderCreated data)).
Proof.
  apply (initiation_then_status_query offline_env sample_body initial_world).
  repeat split; reflexivity.
Defined.

(** ** handleCallback and verifyTransaction, the remaining paths *)

Lemma notify_if_success_frame d w :
  requests (notify_if_success d w) = requests w ∧
  cachedToken (notify_if_success d w) = cachedToken w ∧
  tokenExpiry (notify_if_success d w) = tokenExpiry w ∧
  donations (notify_if_success d w) = donations w.
Proof. unfold notify_if_success. by destruct (decide _). Qed.

(** X23. handleCallback never contacts the processor and never touches the
    token cache. verifyTransaction never touches the token cache either,
    and makes at most one request: the status query for the polling id
    stored on the donation it found. *)
Theorem callbacks_never_call_out (E : Env) (cb : CallbackData) (ref : string)
  (w : World) :
  (requests (snd (handleCallback E cb w)) = requests w ∧
   cachedToken (snd (handleCallback E cb w)) = cachedToken w ∧
   tokenExpiry (snd (handleCallback E cb w)) = tokenExpiry w) ∧
  (cachedToken (snd (verifyTransaction E ref w)) = cachedToken w ∧
   tokenExpiry (snd (verifyTransaction E ref w)) = tokenExpiry w ∧
   (requests (snd (verifyTransaction E ref w)) = requests w
    ∨ ∃ i d t,
        list_find (λ x, donationRef x = ref) (donations w) = Some (i, d) ∧
        mswipeTransId d = Some t ∧
        requests (snd (verifyTransaction E ref w)) =
          requests w ++ [GetPBLTransactionDetails t])).
Proof.
  split.
  - destruct (handleCallback_world E cb w)
      as [-> | (i & d & v & _ & _ & _ & [[_ ->] | (tx & ipg & _ & _ & _ & ->)])];
      [done|done|].
    by destruct (notify_if_success_frame (callback_update E cb v tx ipg d)
                   (with_donations w
                      (<[i := callback_update E cb v tx ipg d]> (donations w))))
      as (-> & -> & -> & _).
  - destruct (verifyTransaction_world E ref w)
      as [-> | (i & d & t & Hf & Ht & _ & Hw)]; [by auto|].
    destruct Hw as [-> | (data & tx & ipg & _ & _ & _ & _ & _ & ->)].
    + split; [done|]. split; [done|]. right. by exists i, d, t.
    + destruct (notify_if_success_frame (verify_update E data tx ipg d)
                  (with_donations (with_request w (GetPBLTransactionDetails t))
                     (<[i := verify_update E data tx ipg d]> (donations w))))
        as (-> & -> & -> & _).
      split; [done|]. split; [done|]. right. by exists i, d, t.
Qed.

(** X24. A callback whose TRAN_STATUS is 'pending' does not settle the
    donation: [paymentStatus] stays PENDING, so later callbacks are still
    processed, while the legacy status becomes 'failed' and the reference
    from the payload is recorded; no notification is sent, and without a
    result page the answer is 200 with success false. *)
Theorem pending_callback_keeps_donation_open (E : Env) (cb : CallbackData)
  (w : World) (v : Verification) (i : nat) (d : Donation)
  (txref ipg : option string) :
  verifyCallback cb = Valid v →
  fst (findOne_by_order E (v_orderId v) w) = Ok (Some (i, d)) →
  paymentStatus d = PENDING →
  amount_mismatch v d = false →
  v_status v = PENDING →
  castString E (v_transactionRef v) = Some txref →
  castString E (v_ipgId v) = Some ipg →
  ∃ resp d',
    handleCallback E cb w =
      (Ok resp, with_donations w (<[i := d']> (donations w))) ∧
    paymentStatus d' = PENDING ∧ status d' = failed ∧
    mswipeTransactionRef d' = txref ∧
    (truthy (FRONTEND_PAYMENT_RESULT_URL E) = false →
     resp = Json 200 (CallbackResultBody false PENDING (donationRef d)
                        "Payment failed")) ∧
    (truthy (FRONTEND_PAYMENT_RESULT_URL E) = true →
     resp = Redirect (FRONTEND_PAYMENT_RESULT_URL E) "pending"
              (donationRef d) (Some (amount d))).
Proof.
  intros Hv Hf Hp Hm Hs Ht Hi.
  rewrite (handleCallback_update E cb w v i d txref ipg Hv Hf Hp Hm Ht Hi).
  exists (callback_reply E (callback_update E cb v txref ipg d) true),
         (callback_update E cb v txref ipg d).
  unfold notify_if_success, callback_reply. simpl. rewrite Hs. simpl.
  split; [done|]. split; [done|]. split; [done|]. split; [done|].
  split; by intros ->.
Qed.

Lemma pending_callback_keeps_donation_open_witness :
  ∃ resp d',
    handleCallback offline_env pending_callback (sample_world open_donation) =
      (Ok resp,
       with_donations (sample_world open_donation)
         (<[0 := d']> (donations (sample_world open_donation)))) ∧
    paymentStatus d' = PENDING ∧ status d' = failed ∧
    mswipeTransactionRef d' = Some "RRN7" ∧
    resp = Json 200 (CallbackResultBody false PENDING "CMV1" "Payment failed").
Proof.
  destruct (pending_callback_keeps_donation_open offline_env pending_callback
              (sample_world open_donation) _ 0 open_donation
              (Some "RRN7") (Some "IPG9")
              eq_refl eq_refl eq_refl eq_refl eq_refl eq_refl eq_refl)
    as (resp & d' & Hrun & Hp & Hl & Ht & Hjson & _).
  exists resp, d'. split; [exact Hrun|]. split; [exact Hp|].
  split; [exact Hl|]. split; [exact Ht|]. apply Hjson. reflexivity.
Defined.

(** X25. A callback that verifies as SUCCESS, for a PENDING donation and
    without an amount mismatch, settles the donation as SUCCESS with legacy
    status 'completed', records RRN or else IPG_ID as the transaction
    reference, keeps the link data stored at initiation beside the new
    callback record, and hands exactly one notification to the mailer. *)
Theorem approved_callback_settles_and_notifies (E : Env) (cb : CallbackData)
  (w : World) (v : Verification) (i : nat) (d : Donation)
  (txref ipg : option string) :
  verifyCallback cb = Valid v →
  fst (findOne_by_order E (v_orderId v) w) = Ok (Some (i, d)) →
  paymentStatus d = PENDING →
  amount_mismatch v d = false →
  v_status v = SUCCESS →
  castString E (v_transactionRef v) = Some txref →
  castString E (v_ipgId v) = Some ipg →
  ∃ resp d',
    handleCallback E cb w =
      (Ok resp,
       with_mail (with_donations w (<[i := d']> (donations w))) (mail_of d')) ∧
    success_shaped resp ∧
    paymentStatus d' = SUCCESS ∧ status d' = completed ∧
    v_transactionRef v = js_or (RRN cb) (IPG_ID cb) ∧
    mswipeTransactionRef d' = txref ∧ mswipeIpgId d' = ipg ∧
    sr_link (mswipePaymentResponse d') = sr_link (mswipePaymentResponse d) ∧
    sr_statusCheck (mswipePaymentResponse d')
      = sr_statusCheck (mswipePaymentResponse d) ∧
    sr_callback (mswipePaymentResponse d') = Some (callback_info v cb).
Proof.
  intros Hv Hf Hp Hm Hs Ht Hi.
  rewrite (handleCallback_update E cb w v i d txref ipg Hv Hf Hp Hm Ht Hi).
  exists (callback_reply E (callback_update E cb v txref ipg d) true),
         (callback_update E cb v txref ipg d).
  unfold notify_if_success, callback_reply. simpl. rewrite Hs. simpl.
  split; [done|]. split; [by destruct (truthy _)|].
  split; [done|]. split; [done|]. split; [|done].
  unfold verifyCallback in Hv.
  destruct (falsy _ && falsy _); [done|].
  destruct (callback_status _); [|done]. by injection Hv as <-.
Qed.

Lemma approved_callback_settles_and_notifies_witness :
  ∃ resp d',
    handleCallback offline_env (approved_callback "100")
      (sample_world open_donation) =
      (Ok resp,
       with_mail
         (with_donations (sample_world open_donation)
            (<[0 := d']> (donations (sample_world open_donation))))
         (mail_of d')) ∧
    success_shaped resp ∧ paymentStatus d' = SUCCESS ∧
    mswipeTransactionRef d' = Some "RRN7".
Proof.
  destruct (approved_callback_settles_and_notifies offline_env
              (approved_callback "100") (sample_world open_donation) _ 0
              open_donation (Some "RRN7") (Some "IPG9")
              eq_refl eq_refl eq_refl eq_refl eq_refl eq_refl eq_refl)
    as (resp & d' & Hrun & Hok & Hp & _ & _ & Ht & _).
  exists resp, d'. by split_and!.
Defined.

Lemma checkTransactionStatus_ok E t w reply txn :
  str_nonempty t = true →
  reply_details E = Resolved reply →
  is_str (dr_Status reply) "True" || is_true (dr_Status reply) = true →
  dr_Data0 reply = Some txn →
  checkTransactionStatus E t w =
    (Ok (StatusOk {| sd_status := map_payment_status (td_Payment_Status txn);
                     sd_txn := txn |}),
     with_request w (GetPBLTransactionDetails t)).
Proof.
  intros Ht Hr Hs Hd. unfold checkTransactionStatus, axios_post. unfold_monad.
  rewrite Ht, Hr. simpl. by rewrite Hs, Hd.
Qed.

(** X26. verifyTransaction settles a PENDING donation from the processor's
    answer: when the status query returns a transaction record whose code
    does not mean pending, the donation takes the mapped status, records
    Payment_Id or else IPG_ID as its reference, the answer is 200 with the
    new status, one status query is made, and a notification is sent
    exactly when the new status is SUCCESS. *)
Theorem verification_settles_pending_donation (E : Env) (ref : string)
  (w : World) (i : nat) (d : Donation) (t : string) (reply : DetailsReply)
  (txn : TxnData) (txref ipg : option string) :
  str_nonempty ref = true →
  list_find (λ x, donationRef x = ref) (donations w) = Some (i, d) →
  mswipeTransId d = Some t → str_nonempty t = true →
  paymentStatus d = PENDING →
  reply_details E = Resolved reply →
  is_str (dr_Status reply) "True" || is_true (dr_Status reply) = true →
  dr_Data0 reply = Some txn →
  map_payment_status (td_Payment_Status txn) ≠ PENDING →
  castString E (js_or (td_Payment_Id txn) (td_IPG_ID txn)) = Some txref →
  castString E (td_IPG_ID txn) = Some ipg →
  ∃ d' w',
    verifyTransaction E ref w =
      (Ok (Json 200 (VerifiedBody ref
                       (map_payment_status (td_Payment_Status txn))
                       {| sd_status := map_payment_status (td_Payment_Status txn);
                          sd_txn := txn |}
                       (amount d) txref (now E))), w') ∧
    donations w' = <[i := d']> (donations w) ∧
    paymentStatus d' = map_payment_status (td_Payment_Status txn) ∧
    status d' = legacy_of (map_payment_status (td_Payment_Status txn)) ∧
    mswipeTransactionRef d' = txref ∧
    requests w' = requests w ++ [GetPBLTransactionDetails t] ∧
    (paymentStatus d' = SUCCESS → outbox w' = outbox w ++ [mail_of d']) ∧
    (paymentStatus d' ≠ SUCCESS → outbox w' = outbox w).
Proof.
  intros Hr Hf Ht Hn Hp Hrep Hs Hd Hst Hc Hi.
  pose proof Hf as Hf'. apply list_find_Some in Hf' as (_ & Href & _).
  unfold verifyTransaction, findOne_by_ref. unfold_monad.
  rewrite Hr. simpl. rewrite Hf, Ht.
  destruct t as [|c r]; [done|].
  rewrite (checkTransactionStatus_ok E (String c r) w reply txn Hn Hrep Hs Hd).
  simpl. rewrite Hp.
  destruct (decide (PENDING = PENDING ∧ _)) as [_|Hno];
    [|by destruct Hno].
  unfold sd_paymentId, sd_ipgId. simpl. rewrite Hc, Hi. unfold save. simpl.
  destruct (decide (map_payment_status (td_Payment_Status txn) = SUCCESS))
    as [Hsu|Hsu]; simpl; rewrite Href;
    (eexists _, _; split; [reflexivity|]); simpl;
    split_and!; try done.
  intros _. unfold mail_of. simpl. by rewrite Href.
Qed.

Lemma verification_settles_pending_donation_witness :
  ∃ d' w',
    fst (verifyTransaction (status_env (VNum (num_of_Z 1))) "CMV1"
           (sample_world open_donation)) =
      Ok (Json 200 (VerifiedBody "CMV1" SUCCESS
                      {| sd_status := SUCCESS;
                         sd_txn := sample_txn (VNum (num_of_Z 1)) |}
                      (num_of_Z 100) (Some "RRN7")
                      (now (status_env (VNum (num_of_Z 1)))))) ∧
    snd (verifyTransaction (status_env (VNum (num_of_Z 1))) "CMV1"
           (sample_world open_donation)) = w' ∧
    donations w' = [d'] ∧ paymentStatus d' = SUCCESS ∧
    outbox w' = [mail_of d'].
Proof.
  destruct (verification_settles_pending_donation
              (status_env (VNum (num_of_Z 1))) "CMV1"
              (sample_world open_donation) 0 open_donation "T1" _
              (sample_txn (VNum (num_of_Z 1))) (Some "RRN7") (Some "IPG9")
              eq_refl eq_refl eq_refl eq_refl eq_refl eq_refl eq_refl eq_refl)
    as (d' & w' & Hrun & Hd & Hp & _ & _ & _ & Hmail & _);
    [discriminate|reflexivity|reflexivity|].
  exists d', w'. rewrite Hrun. split; [reflexivity|]. split; [reflexivity|].
  split; [exact Hd|]. split; [exact Hp|]. apply Hmail. exact Hp.
Defined.

(** X27. verifyTransaction leaves the collection as it is when there is
    nothing to apply: if the status query fails, the answer is 500 with the
    donation's current status; if the processor still reports pending, or
    the donation is already settled, the answer is 200 with the stored
    status. One status query is made in each case. *)
Theorem verification_without_news (E : Env) (ref : string) (w : World)
  (i : nat) (d : Donation) (t : string) :
  str_nonempty ref = true →
  list_find (λ x, donationRef x = ref) (donations w) = Some (i, d) →
  mswipeTransId d = Some t → str_nonempty t = true →
  (fst (checkTransactionStatus E t w) = Ok StatusFailed →
   verifyTransaction E ref w =
     (Ok (Json 500 (VerifyFailedBody "Failed to verify transaction status"
                      (paymentStatus d))),
      with_request w (GetPBLTransactionDetails t))) ∧
  (∀ data,
      fst (checkTransactionStatus E t w) = Ok (StatusOk data) →
      paymentStatus d ≠ PENDING ∨ sd_status data = PENDING →
      verifyTransaction E ref w =
        (Ok (Json 200 (VerifiedBody ref (paymentStatus d) data (amount d)
                         (mswipeTransactionRef d) (updatedAt d))),
         with_request w (GetPBLTransactionDetails t))).
Proof.
  intros Hr Hf Ht Hn.
  pose proof Hf as Hf'. apply list_find_Some in Hf' as (_ & Href & _).
  destruct (checkTransactionStatus_world E t w Hn) as (res & Hrun).
  unfold verifyTransaction, findOne_by_ref. unfold_monad.
  rewrite Hr. simpl. rewrite Hf, Ht. destruct t as [|c r]; [done|].
  rewrite Hrun. simpl. split.
  - by intros [= ->].
  - intros data [= ->] Hcase.
    destruct (decide (paymentStatus d = PENDING ∧ sd_status data ≠ PENDING))
      as [[Hp Hs]|_]; [by destruct Hcase|].
    by rewrite Href.
Qed.

Lemma verification_without_news_witness :
  verifyTransaction offline_env "CMV1" (sample_world open_donation) =
    (Ok (Json 500 (VerifyFailedBody "Failed to verify transaction status"
                     PENDING)),
     with_request (sample_world open_donation)
       (GetPBLTransactionDetails "T1")) ∧
  verifyTransaction (status_env (VNum (num_of_Z 2))) "CMV1"
    (sample_world open_donation) =
    (Ok (Json 200 (VerifiedBody "CMV1" PENDING
                     {| sd_status := PENDING;
                        sd_txn := sample_txn (VNum (num_of_Z 2)) |}
                     (num_of_Z 100) None 1690000000000)),
     with_request (sample_world open_donation)
       (GetPBLTransactionDetails "T1")).
Proof.
  destruct (verification_without_news offline_env "CMV1"
              (sample_world open_donation) 0 open_donation "T1"
              eq_refl eq_refl eq_refl eq_refl) as [Hfail _].
  destruct (verification_without_news (status_env (VNum (num_of_Z 2))) "CMV1"
              (sample_world open_donation) 0 open_donation "T1"
              eq_refl eq_refl eq_refl eq_refl) as [_ Hsame].
  split.
  - apply Hfail. reflexivity.
  - apply (Hsame {| sd_status := PENDING;
                    sd_txn := sample_txn (VNum (num_of_Z 2)) |});
      [reflexivity|]. right. reflexivity.
Defined.

(** ** From initiation to the approved callback *)

Lemma approved_is_nonempty s : toLowerCase s = "approved" → str_nonempty s = true.
Proof. by destruct s. Qed.

Lemma verifyCallback_approved cb s :
  truthy (ME_InvNo cb) = true →
  TRAN_STATUS cb = VStr s → toLowerCase s = "approved" →
  ∃ v, verifyCallback cb = Valid v ∧ v_status v = SUCCESS ∧
       v_orderId v = ME_InvNo cb ∧
       v_transactionRef v = js_or (RRN cb) (IPG_ID cb) ∧
       v_ipgId v = IPG_ID cb ∧
       v_amount v = (if truthy (TranAmount cb)
                     then Some (parseFloat (TranAmount cb)) else None).
Proof.
  intros Hm Hs Hl. unfold verifyCallback, falsy. rewrite Hm, Hs. simpl.
  unfold callback_status. simpl. rewrite (approved_is_nonempty s Hl), Hl.
  simpl. by eexists.
Qed.

(** X28. An accepted initiation that obtained a link, followed by a
    callback for the generated order id whose TRAN_STATUS reads 'approved'
    in any letter case and whose amount is absent or equal to the amount of
    the request, leaves the new donation SUCCESS with the reference from
    the payload, and one notification for it in the outbox. *)
Theorem initiation_then_approved_callback (E E' : Env) (b : InitiateBody)
  (w w1 : World) (data : OrderInfo) (ipg : option string)
  (cb : CallbackData) (s : string) (txref ipg' : option string) :
  accepted E b w →
  createOrder E (order_of E b) w = (Ok (OrderCreated data), w1) →
  castString E (oi_txnId data) = Some ipg →
  Forall (λ x, mswipeOrderId x ≠ Some (fresh_orderId E)) (donations w) →
  str_nonempty (fresh_orderId E) = true →
  ME_InvNo cb = VStr (fresh_orderId E) →
  TRAN_STATUS cb = VStr s → toLowerCase s = "approved" →
  falsy (TranAmount cb) = true
  ∨ num_eqb (parseFloat (TranAmount cb)) (ToNumber (b_amount b)) = true →
  castString E' (js_or (RRN cb) (IPG_ID cb)) = Some txref →
  castString E' (IPG_ID cb) = Some ipg' →
  ∃ d,
    donations (run [(E, Initiate b); (E', Callback cb)] w)
      = donations w ++ [d] ∧
    donationRef d = fresh_donationRef E ∧
    amount d = ToNumber (b_amount b) ∧
    paymentStatus d = SUCCESS ∧ mswipeTransactionRef d = txref ∧
    outbox (run [(E, Initiate b); (E', Callback cb)] w)
      = outbox w ++ [mail_of d].
Proof.
  intros Ha Ho Hc Hfresh Hne Hinv Hst Hl Hamt Htx Hip.
  destruct (createOrder_run E (order_of E b) w) as (r & w1' & Hrun & _ & Hout).
  rewrite Ho in Hrun. injection Hrun as <- <-.
  destruct (initiatePayment_accepted_run E b w Ha) as (r & w1' & Hrun & Hinit).
  rewrite Ho in Hrun. injection Hrun as <- <-. rewrite Hc in Hinit.
  set (d1 := set_updatedAt (set_link (pending_donation E b) ipg
                              (oi_transId data)
                              {| sr_link := Some (oi_mswipeResponse data);
                                 sr_callback := None;
                                 sr_statusCheck := None |}) (now E)) in *.
  set (w2 := with_donations w1 (donations w ++ [d1])) in *.
  assert (truthy (ME_InvNo cb) = true) as Hm by by rewrite Hinv.
  destruct (verifyCallback_approved cb s Hm Hst Hl)
    as (v & Hv & Hvs & Hvo & Hvt & Hvi & Hva).
  assert (fst (findOne_by_order E' (v_orderId v) w2)
          = Ok (Some (List.length (donations w), d1))) as Hf.
  { rewrite Hvo, Hinv. unfold findOne_by_order. simpl. f_equal.
    apply list_find_Some. split.
    - by rewrite lookup_app_r, Nat.sub_diag by lia.
    - split; [done|]. intros j y Hj Hlt.
      rewrite lookup_app_l in Hj by done.
      rewrite Forall_lookup in Hfresh. by apply (Hfresh j y). }
  assert (amount_mismatch v d1 = false) as Hmm.
  { unfold amount_mismatch. rewrite Hva. unfold falsy in Hamt.
    destruct Hamt as [Hf0%negb_true_iff | He].
    - by rewrite Hf0.
    - destruct (truthy (TranAmount cb)); [|done].
      change (amount d1) with (ToNumber (b_amount b)).
      by rewrite He, andb_false_r. }
  assert (run [(E, Initiate b); (E', Callback cb)] w =
          with_mail
            (with_donations w2
               (donations w ++ [callback_update E' cb v txref ipg' d1]))
            (mail_of (callback_update E' cb v txref ipg' d1))) as ->.
  { simpl. unfold step. simpl. rewrite Hinit. simpl. fold w2.
    rewrite (handleCallback_update E' cb w2 v _ d1 txref ipg' Hv Hf eq_refl
               Hmm); [|by rewrite Hvt|by rewrite Hvi].
    unfold notify_if_success, sendDonationEmail. simpl. rewrite Hvs. simpl.
    by rewrite insert_app_r_alt, Nat.sub_diag by lia. }
  exists (callback_update E' cb v txref ipg' d1). simpl.
  rewrite Hout. by rewrite Hvs.
Qed.

Lemma initiation_then_approved_callback_witness :
  ∃ d,
    donations (run [(online_env, Initiate sample_body);
                    (offline_env, Callback fresh_order_callback)]
                 (sample_world open_donation))
      = donations (sample_world open_donation) ++ [d] ∧
    donationRef d = fresh_donationRef online_env ∧
    amount d = ToNumber (b_amount sample_body) ∧
    paymentStatus d = SUCCESS ∧ mswipeTransactionRef d = Some "RRN7" ∧
    outbox (run [(online_env, Initiate sample_body);
                 (offline_env, Callback fresh_order_callback)]
              (sample_world open_donation))
      = outbox (sample_world open_donation) ++ [mail_of d].
Proof.
  apply (initiation_then_approved_callback online_env offline_env sample_body
           (sample_world open_donation)
           (snd (createOrder online_env (order_of online_env sample_body)
                   (sample_world open_donation)))
           (order_info online_env sample_link) (Some "IPG9")
           fresh_order_callback "APPROVED" (Some "RRN7") (Some "IPG9"));
    try reflexivity.
  - repeat split; reflexivity.
  - simpl. apply Forall_singleton. discriminate.
  - right. reflexivity.
Defined.

(** ** Generated identifiers *)

Lemma decimal_inj n n' : decimal n = decimal n' → n = n'.
Proof.
  unfold decimal. intros H. apply Unsigned.to_uint_inj.
  apply (f_equal NilEmpty.uint_of_string) in H.
  rewrite !NilEmpty.usu in H. by injection H.
Qed.

Lemma string_length_app (a b : string) :
  String.length (a +:+ b) = (String.length a + String.length b)%nat.
Proof. induction a as [|c a IH]; simpl; [done|by rewrite IH]. Qed.

(** Two concatenations with heads of equal length are equal part by part. *)
Lemma string_app_inj_head (a a' b b' : string) :
  String.length a = String.length a' → a +:+ b = a' +:+ b' → a = a' ∧ b = b'.
Proof.
  revert a'. induction a as [|c a IH]; intros [|c' a'] Hl H; simpl in *;
    try done.
  injection H as -> H. destruct (IH a') as [-> ->]; [lia|done|done].
Qed.

(** The same with tails of equal length. *)
Lemma string_app_inj_tail (a a' b b' : string) :
  String.length b = String.length b' → a +:+ b = a' +:+ b' → a = a' ∧ b = b'.
Proof.
  intros Hl H. apply string_app_inj_head; [|done].
  apply (f_equal String.length) in H. rewrite !string_length_app in H. lia.
Qed.

Lemma decode_padded k n :
  option_map N.of_uint (NilEmpty.uint_of_string (zeros k +:+ decimal n)) = Some n.
Proof.
  induction k as [|k IH].
  - change (zeros 0 +:+ decimal n) with (decimal n).
    unfold decimal. rewrite NilEmpty.usu. simpl. by rewrite Unsigned.of_to.
  - change (zeros (S k) +:+ decimal n)
      with (String "0" (zeros k +:+ decimal n)).
    cbn [NilEmpty.uint_of_string].
    destruct (NilEmpty.uint_of_string (zeros k +:+ decimal n)); [done|done].
Qed.

Lemma padStart_inj len n n' :
  padStart len (decimal n) = padStart len (decimal n') → n = n'.
Proof.
  unfold padStart. intros H.
  apply (f_equal (λ s, option_map N.of_uint (NilEmpty.uint_of_string s))) in H.
  rewrite !decode_padded in H. by injection H.
Qed.

Lemma zeros_length k : String.length (zeros k) = k.
Proof. induction k; simpl; congruence. Qed.

Lemma four_digits r :
  (r < 10000)%N → String.length (padStart 4 (decimal r)) = 4%nat.
Proof.
  intros Hr.
  assert (forallb (λ k, String.length (decimal (N.of_nat k)) <=? 4)%nat
            (seq 0 (N.to_nat 10000)) = true) as Hall by (vm_compute; reflexivity).
  rewrite forallb_forall in Hall.
  specialize (Hall (N.to_nat r)). rewrite N2Nat.id in Hall.
  assert (String.length (decimal r) ≤ 4)%nat as Hlen.
  { apply Nat.leb_le, Hall, in_seq. lia. }
  unfold padStart. rewrite string_length_app, zeros_length. lia.
Qed.

(** X29. generateOrderId never gives the same order id for two different
    pairs of clock reading and random draw (the draw being below 10000, as
    Math.floor(Math.random() * 10000) is): the id begins with CMV and ends
    with the draw padded to four digits, so both parts can be read
    back. *)
Theorem order_ids_are_distinct (ts ts' r r' : N) :
  (r < 10000)%N → (r' < 10000)%N →
  generateOrderId ts r = generateOrderId ts' r' →
  ts = ts' ∧ r = r'.
Proof.
  intros Hr Hr' H. unfold generateOrderId in H.
  injection H as H.
  change (decimal ts +:+ padStart 4 (decimal r)
          = decimal ts' +:+ padStart 4 (decimal r')) in H.
  apply string_app_inj_tail in H as [Ht Hp];
    [|by rewrite !four_digits].
  split; [by apply decimal_inj|by eapply padStart_inj].
Qed.

Lemma order_ids_are_distinct_witness :
  generateOrderId 1700000000000 42 = "CMV17000000000000042" ∧
  (generateOrderId 1700000000000 42 = generateOrderId 1700000000000 42 →
   1700000000000%N = 1700000000000%N ∧ 42%N = 42%N).
Proof.
  split; [reflexivity|].
  apply (order_ids_are_distinct 1700000000000 1700000000000 42 42);
    reflexivity.
Defined.

(** X30. generateDonationRef appends the draw without padding. Two
    references made at clock readings with the same number of digits are
    equal only for the same reading and the same draw. *)
Theorem donation_refs_are_distinct (ts ts' r r' : N) :
  String.length (decimal ts) = String.length (decimal ts') →
  generateDonationRef ts r = generateDonationRef ts' r' →
  ts = ts' ∧ r = r'.
Proof.
  intros Hl H. unfold generateDonationRef in H. injection H as H.
  change (decimal ts +:+ decimal r = decimal ts' +:+ decimal r') in H.
  apply string_app_inj_head in H as [Ht Hp]; [|done].
  split; by apply decimal_inj.
Qed.

Lemma donation_refs_are_distinct_witness :
  generateDonationRef 1700000000000 4821 = "CMV17000000000004821" ∧
  (generateDonationRef 1700000000000 4821
     = generateDonationRef 1700000000000 4821 →
   1700000000000%N = 1700000000000%N ∧ 4821%N = 4821%N).
Proof.
  split; [reflexivity|].
  apply (donation_refs_are_distinct 1700000000000 1700000000000 4821 4821).
  reflexivity.
Defined.
